(** * jennah: job dispatch and provider routing

    A shallow embedding of the dispatch layer of alphauslabs/jennah:

    - [internal/dispatcher/dispatcher.go]       (module [dispatcher])
    - [internal/batch/gcp/cloudtasks.go]        (module [gcp.cloudtasks])
    - [internal/batch/gcp/cloudrunjobs.go]      (module [gcp.cloudrunjobs])

    Go code that talks to a backend is embedded in a small state monad over
    a record holding the process log and an abstract backend world; a
    computation either finishes with a value and a new state, or panics.
    Go's [(T, error)] results are pairs of options when both halves can be
    nil independently, and sums when a client library returns one or the
    other. *)

From Stdlib Require Import ZArith Ascii.
From stdpp Require Import base option list gmap strings pretty.

(* ===================================================================== *)
(** * Go runtime: errors, log, panics                                     *)
(* ===================================================================== *)

Module golang.

(** A Go [error] value.  [Errorf msg] is an error made by [fmt.Errorf]
    without a [%w] verb (or any opaque error of a client library whose
    message is [msg]); [Wrapf prefix cause] is
    [fmt.Errorf(prefix + "%w", cause)]. *)
Inductive error : Type :=
| Errorf (msg : string)
| Wrapf (prefix : string) (cause : error).

(** [err.Error()]. *)
Fixpoint Error (e : error) : string :=
  match e with
  | Errorf msg => msg
  | Wrapf prefix cause => prefix +:+ Error cause
  end.

(** [errors.Unwrap]. *)
Definition Unwrap (e : error) : option error :=
  match e with
  | Errorf _ => None
  | Wrapf _ cause => Some cause
  end.

(** [strings.HasPrefix s p] and [strings.Contains s sub]. *)
Fixpoint HasPrefix (s p : string) : bool :=
  match p, s with
  | EmptyString, _ => true
  | String a p', String b s' => if decide (a = b) then HasPrefix s' p' else false
  | String _ _, EmptyString => false
  end.

Fixpoint Contains (s sub : string) : bool :=
  HasPrefix s sub ||
  match s with
  | EmptyString => false
  | String _ s' => Contains s' sub
  end.

(** [strings.Split s sep] for a separator of one byte (the adapters split
    on "/" only): the pieces between the separators, one more than there
    are separators. *)
Fixpoint Split (s : string) (sep : Ascii.ascii) : list string :=
  match s with
  | EmptyString => [EmptyString]
  | String c s' =>
      if decide (c = sep) then EmptyString :: Split s' sep
      else match Split s' sep with
           | part :: parts => String c part :: parts
           | [] => [String c EmptyString]
           end
  end.

(** Narrowing conversions and fixed-width arithmetic: [int32(x)] and the
    product of two [int64]. *)
Definition wrap (bits : Z) (x : Z) : Z :=
  ((x + 2 ^ (bits - 1)) mod 2 ^ bits - 2 ^ (bits - 1))%Z.

Definition int32 (x : Z) : Z := wrap 32 x.
Definition mul64 (x y : Z) : Z := wrap 64 (x * y).

Section runtime.
Variable World : Type.

(** What a call can observe and change: the lines written with
    [log.Printf] so far, and the state of the backend services. *)
Record State : Type := mkState { logged : list string; world : World }.

Inductive Res (A : Type) : Type :=
| Done (a : A) (s : State)
| Panic.

Definition M (A : Type) : Type := State -> Res A.

Definition ret {A : Type} (a : A) : M A := fun s => Done A a s.

Definition bind {A B : Type} (m : M A) (k : A -> M B) : M B :=
  fun s => match m s with
           | Done _ a s' => k a s'
           | Panic _ => Panic B
           end.

(** A nil dereference or a method call on a nil interface. *)
Definition panic {A : Type} : M A := fun _ => Panic A.

(** [log.Printf]: the formatted line is appended to the log. *)
Definition logPrintf (line : string) : M unit :=
  fun s => Done unit tt (mkState (logged s ++ [line]) (world s)).

(** A call of a backend client: it acts on the world only. *)
Definition call {A : Type} (f : World -> A * World) : M A :=
  fun s => let '(a, w) := f (world s) in Done A a (mkState (logged s) w).

(** [for _, x := range xs { body x }]. *)
Fixpoint forEach {A : Type} (xs : list A) (body : A -> M unit) : M unit :=
  match xs with
  | [] => ret tt
  | x :: xs' => bind (body x) (fun _ => forEach xs' body)
  end.

End runtime.

Arguments mkState {World} _ _.
Arguments logged {World} _.
Arguments world {World} _.
Arguments Done {World A} _ _.
Arguments Panic {World A}.
Arguments ret {World A} _ _.
Arguments bind {World A B} _ _ _.
Arguments panic {World A} _.
Arguments logPrintf {World} _ _.
Arguments call {World A} _ _.
Arguments forEach {World A} _ _ _.

End golang.

Import golang.

Declare Scope go_scope.
Delimit Scope go_scope with go.
Notation "x <- m ;; k" := (bind m (fun x => k))
  (at level 100, m at next level, right associativity) : go_scope.
Notation "m ;;; k" := (bind m (fun _ => k))
  (at level 100, right associativity) : go_scope.

(* ===================================================================== *)
(** * Package batch: the shared job model                                 *)
(* ===================================================================== *)

Module batch.

(** Modelled from the spec: the declarations of package [internal/batch]
    ([JobStatus], [JobConfig], [JobResult], [Provider]) are not among the
    sources; the status values are the six logical states of the data
    model, and the records carry the fields the adapters read and write. *)
Inductive JobStatus : Type :=
| JobStatusUnknown
| JobStatusPending
| JobStatusRunning
| JobStatusCompleted
| JobStatusFailed
| JobStatusCancelled.

#[global] Instance JobStatus_eq_dec : EqDecision JobStatus.
Proof. solve_decision. Defined.

(** [*ResourceRequirements]: zero means "use the provider's default". *)
Record ResourceRequirements : Type := {
  CPUMillis : Z;
  MemoryMiB : Z;
  MaxRunDurationSeconds : Z
}.

Record TaskGroupConfig : Type := {
  TaskCount : Z;
  Parallelism : Z
}.

Record JobConfig : Type := {
  JobID : string;
  ImageURI : string;
  Commands : list string;
  ContainerEntrypoint : string;
  EnvVars : gmap string string;
  Resources : option ResourceRequirements;
  TaskGroup : option TaskGroupConfig;
  MaxRetryCount : Z;
  ServiceAccount : string
}.

Record JobResult : Type := {
  CloudResourcePath : string;
  InitialStatus : JobStatus
}.

(** The [Provider] interface, as the dispatcher and the adapters use it.
    A method returns what Go returns: a [JobResult] pointer with an
    error, a [JobStatus] with an error, and an error, each half possibly
    nil. *)
Record Provider (World : Type) : Type := {
  ServiceType : string;
  SubmitJob : JobConfig -> M World (option JobResult * option error);
  GetJobStatus : string -> M World (JobStatus * option error);
  CancelJob : string -> M World (option error)
}.

Arguments ServiceType {World} _.
Arguments SubmitJob {World} _ _ _.
Arguments GetJobStatus {World} _ _ _.
Arguments CancelJob {World} _ _ _.

(** Modelled from the spec: [ProviderConfig], with the fields the
    constructors of the adapters read (project, region, option map). *)
Record ProviderConfig : Type := {
  ProjectID : string;
  Region : string;
  ProviderOptions : gmap string string
}.

End batch.

(* ===================================================================== *)
(** * Package router: resource tiers                                      *)
(* ===================================================================== *)

Module router.

(** Modelled from the spec: package [internal/router] is not among the
    sources.  [AssignedService] is the tag of the three tiers; the
    constructor names are the constants [dispatcher.go] uses. *)
Inductive AssignedService : Type :=
| AssignedServiceCloudTasks
| AssignedServiceCloudRunJob
| AssignedServiceCloudBatch.

#[global] Instance AssignedService_eq_dec : EqDecision AssignedService.
Proof. solve_decision. Defined.

#[global] Instance AssignedService_countable : Countable AssignedService.
Proof.
  refine (inj_countable'
    (fun svc => match svc with
                | AssignedServiceCloudTasks => 0
                | AssignedServiceCloudRunJob => 1
                | AssignedServiceCloudBatch => 2
                end)
    (fun n => match n with
              | 0 => AssignedServiceCloudTasks
              | 1 => AssignedServiceCloudRunJob
              | _ => AssignedServiceCloudBatch
              end) _).
  intros []; reflexivity.
Defined.

(** Modelled from the spec: the Router's policy, fixed thresholds checked in
    ascending order, first match wins:
    CPU <= 500 mCPU, memory <= 512 MiB, duration <= 600 s: Cloud Tasks;
    CPU <= 4000 mCPU, memory <= 8192 MiB, duration <= 3600 s: Cloud Run Jobs;
    otherwise Cloud Batch. *)
Definition within (cpu mem dur : Z) (maxCPU maxMem maxDur : Z) : bool :=
  (cpu <=? maxCPU)%Z && (mem <=? maxMem)%Z && (dur <=? maxDur)%Z.

Definition Router (cpuMillis memoryMiB durationSeconds : Z) : AssignedService :=
  if within cpuMillis memoryMiB durationSeconds 500 512 600
  then AssignedServiceCloudTasks
  else if within cpuMillis memoryMiB durationSeconds 4000 8192 3600
  then AssignedServiceCloudRunJob
  else AssignedServiceCloudBatch.

End router.

(* ===================================================================== *)
(** * Package dispatcher (internal/dispatcher/dispatcher.go)              *)
(* ===================================================================== *)

Module dispatcher.
Import batch router.

Section dispatcher.
Variable World : Type.

(** How [%s] prints an [AssignedService]: its declaration (package
    [router]) is not among the sources, so the rendering is a parameter. *)
Variable svcString : AssignedService -> string.

(** [providers] maps a tier to a value of the interface type
    [batch.Provider]; [None] is the nil interface value. *)
Record Dispatcher : Type := {
  providers : gmap AssignedService (option (Provider World))
}.

(** [type Option]: a function on a pointer to the dispatcher under
    construction, which it updates. *)
Definition Option : Type := Dispatcher -> Dispatcher.

Definition WithCloudTasks (p : option (Provider World)) : Option :=
  fun d => {| providers := <[AssignedServiceCloudTasks := p]> (providers d) |}.

Definition WithCloudRunJobs (p : option (Provider World)) : Option :=
  fun d => {| providers := <[AssignedServiceCloudRunJob := p]> (providers d) |}.

Definition WithCloudBatch (p : option (Provider World)) : Option :=
  fun d => {| providers := <[AssignedServiceCloudBatch := p]> (providers d) |}.

(** A method call [p.m(...)] on an interface value: it panics when the
    interface is nil. *)
Definition invoke {A : Type} (p : option (Provider World))
    (m : Provider World -> M World A) : M World A :=
  match p with
  | Some impl => m impl
  | None => panic
  end.

(** The dispatcher after [for _, opt := range opts { opt(d) }]. *)
Definition applyOptions (opts : list Option) : Dispatcher :=
  foldl (fun d opt => opt d) {| providers := ∅ |} opts.

Definition errNoProvider : error :=
  Errorf "dispatcher: at least one provider must be configured".

(** [New]: the registry is filled by the options; an empty registry is
    refused, otherwise every registered provider is logged (Go ranges over
    the map in an unspecified order; here in the order of [map_to_list]). *)
Definition New (opts : list Option) : M World (option Dispatcher * option error) :=
  let d := applyOptions opts in
  if decide (size (providers d) = 0) then
    ret (None, Some errNoProvider)
  else
    (forEach (map_to_list (providers d)) (fun '(svc, p) =>
       st <- invoke p (fun impl => ret (ServiceType impl)) ;;
       logPrintf ("Dispatcher: registered " +:+ svcString svc +:+
                  " provider (service_type=" +:+ st +:+ ")")) ;;;
     ret (Some d, None))%go.

Definition errNotRegistered (svc : AssignedService) : error :=
  Errorf ("dispatcher: no provider registered for service " +:+ svcString svc).

(** [ProviderFor]: a map read with the comma-ok form; it touches neither
    the log nor the backend. *)
Definition ProviderFor (d : Dispatcher) (svc : AssignedService)
    : option (Provider World) * option error :=
  match providers d !! svc with
  | None => (None, Some (errNotRegistered svc))
  | Some p => (p, None)
  end.

Definition SubmitJob (d : Dispatcher) (assignedService : AssignedService)
    (config : JobConfig) : M World (option JobResult * option error) :=
  match ProviderFor d assignedService with
  | (_, Some err) => ret (None, Some err)
  | (p, None) =>
      (logPrintf ("Dispatcher: routing job " +:+ JobID config +:+ " to " +:+
                  svcString assignedService) ;;;
       invoke p (fun impl => batch.SubmitJob impl config))%go
  end.

Definition GetJobStatus (d : Dispatcher) (assignedService : AssignedService)
    (cloudResourcePath : string) : M World (JobStatus * option error) :=
  match ProviderFor d assignedService with
  | (_, Some err) => ret (JobStatusUnknown, Some err)
  | (p, None) => invoke p (fun impl => batch.GetJobStatus impl cloudResourcePath)
  end.

Definition CancelJob (d : Dispatcher) (assignedService : AssignedService)
    (cloudResourcePath : string) : M World (option error) :=
  match ProviderFor d assignedService with
  | (_, Some err) => ret (Some err)
  | (p, None) => invoke p (fun impl => batch.CancelJob impl cloudResourcePath)
  end.

End dispatcher.

Arguments providers {World} _.
Arguments Build_Dispatcher {World} _.
Arguments WithCloudTasks {World} _ _.
Arguments WithCloudRunJobs {World} _ _.
Arguments WithCloudBatch {World} _ _.
Arguments invoke {World A} _ _ _.
Arguments applyOptions {World} _.
Arguments New {World} _ _ _.
Arguments errNotRegistered _ _ : clear implicits.
Arguments ProviderFor {World} _ _ _.
Arguments SubmitJob {World} _ _ _ _ _.
Arguments GetJobStatus {World} _ _ _ _ _.
Arguments CancelJob {World} _ _ _ _ _.

End dispatcher.

(* ===================================================================== *)
(** * Package gcp: Cloud Tasks (internal/batch/gcp/cloudtasks.go)          *)
(* ===================================================================== *)

Module gcp.

Module cloudtasks.
Import batch.

(** The messages of [cloudtaskspb] the adapter reads and builds.  A nil
    message pointer is [None]; the generated getters are nil-safe. *)
Record Status : Type := { Code : Z; Message : string }.

Record Attempt : Type := { ResponseStatus : option Status }.

Record HttpRequest : Type := {
  HttpMethod : string;
  Url : string;
  Headers : gmap string string;
  Body : string;
  OidcServiceAccountEmail : string
}.

Record Task : Type := {
  Name : string;
  TaskHttpRequest : option HttpRequest;
  LastAttempt : option Attempt
}.

Record CreateTaskRequest : Type := {
  Parent : string;
  ReqTask : Task
}.

Definition GetName (task : option Task) : string :=
  match task with
  | Some t => Name t
  | None => ""
  end.

(** [mapCloudTasksStatus] maps a Cloud Tasks task to a job status. *)
Definition mapCloudTasksStatus (task : option Task) : JobStatus :=
  match task with
  | None => JobStatusUnknown
  | Some t =>
      match LastAttempt t with
      | Some lastAttempt =>
          match ResponseStatus lastAttempt with
          | Some respStatus =>
              let code := Code respStatus in
              if (200 <=? code)%Z && (code <? 300)%Z
              then JobStatusCompleted
              else JobStatusFailed
          | None => JobStatusRunning
          end
      | None => JobStatusPending
      end
  end.

(** The JSON payload sent to the target endpoint. *)
Record taskPayload : Type := {
  payloadJobID : string;
  payloadImageURI : string;
  payloadCommands : list string;
  payloadEnvVars : gmap string string
}.

Section provider.
Variable World : Type.

(** [json.Marshal] on a payload: the encoder is outside the repository. *)
Variable jsonMarshal : taskPayload -> string + error.

(** The calls of [cloudtasks.Client] the adapter makes.  A call returns a
    message or an error. *)
Record Client : Type := {
  CreateTask : CreateTaskRequest -> World -> (Task + error) * World;
  GetTask : string -> World -> (Task + error) * World;
  DeleteTask : string -> World -> option error * World
}.

Record GCPCloudTasksProvider : Type := {
  client : Client;
  projectID : string;
  region : string;
  queueID : string;
  targetURL : string
}.

Definition SubmitJob (p : GCPCloudTasksProvider) (config : JobConfig)
    : M World (option JobResult * option error) :=
  let queuePath := "projects/" +:+ projectID p +:+ "/locations/" +:+ region p +:+
                   "/queues/" +:+ queueID p in
  let payload := {| payloadJobID := JobID config;
                    payloadImageURI := ImageURI config;
                    payloadCommands := Commands config;
                    payloadEnvVars := EnvVars config |} in
  match jsonMarshal payload with
  | inr err => ret (None, Some (Wrapf "failed to marshal task payload: " err))
  | inl body =>
      let taskReq :=
        {| Parent := queuePath;
           ReqTask :=
             {| Name := "";
                TaskHttpRequest := Some
                  {| HttpMethod := "POST";
                     Url := targetURL p;
                     Headers := {[ "Content-Type" := "application/json" ]};
                     Body := body;
                     OidcServiceAccountEmail := ServiceAccount config |};
                LastAttempt := None |} |} in
      (r <- call (CreateTask (client p) taskReq) ;;
       match r with
       | inr err => ret (None, Some (Wrapf "failed to create Cloud Tasks task: " err))
       | inl task =>
           logPrintf ("Cloud Tasks task created: " +:+ Name task) ;;;
           ret (Some {| CloudResourcePath := Name task;
                        InitialStatus := JobStatusPending |}, None)
       end)%go
  end.

Definition GetJobStatus (p : GCPCloudTasksProvider) (cloudResourcePath : string)
    : M World (JobStatus * option error) :=
  (r <- call (GetTask (client p) cloudResourcePath) ;;
   match r with
   | inr err => ret (JobStatusUnknown, Some (Wrapf "failed to get Cloud Tasks task: " err))
   | inl task => ret (mapCloudTasksStatus (Some task), None)
   end)%go.

(** [CancelJob] deletes the task: Cloud Tasks has no cancel operation. *)
Definition CancelJob (p : GCPCloudTasksProvider) (cloudResourcePath : string)
    : M World (option error) :=
  (r <- call (DeleteTask (client p) cloudResourcePath) ;;
   match r with
   | Some err => ret (Some (Wrapf "failed to delete Cloud Tasks task: " err))
   | None =>
       logPrintf ("Cloud Tasks task deleted (cancelled): " +:+ cloudResourcePath) ;;;
       ret None
   end)%go.

(** The adapter as a value of the [Provider] interface; [serviceType] is
    the constant [batch.ServiceTypeCloudTasks]. *)
Definition asProvider (serviceType : string) (p : GCPCloudTasksProvider)
    : Provider World :=
  {| batch.ServiceType := serviceType;
     batch.SubmitJob := SubmitJob p;
     batch.GetJobStatus := GetJobStatus p;
     batch.CancelJob := CancelJob p |}.

End provider.

Arguments CreateTask {World} _ _ _.
Arguments GetTask {World} _ _ _.
Arguments DeleteTask {World} _ _ _.
Arguments client {World} _.
Arguments projectID {World} _.
Arguments region {World} _.
Arguments queueID {World} _.
Arguments targetURL {World} _.
Arguments SubmitJob {World} _ _ _ _.
Arguments GetJobStatus {World} _ _ _.
Arguments CancelJob {World} _ _ _.
Arguments asProvider {World} _ _ _.

Section construction.
Variable World : Type.

(** [cloudtasks.NewClient]. *)
Variable NewClient : World -> (Client World + error) * World.

(** [m[key]] on a map of strings: the empty string when the key is
    missing. *)
Definition optionOf (options : gmap string string) (key : string) : string :=
  default "" (options !! key).

Definition NewGCPCloudTasksProvider (config : ProviderConfig)
    : M World (option (GCPCloudTasksProvider World) * option error) :=
  if decide (ProjectID config = "") then
    ret (None, Some (Errorf "project_id is required for GCP Cloud Tasks provider"))
  else if decide (Region config = "") then
    ret (None, Some (Errorf "region is required for GCP Cloud Tasks provider"))
  else
    (r <- call NewClient ;;
     match r with
     | inr err => ret (None, Some (Wrapf "failed to create Cloud Tasks client: " err))
     | inl c =>
         let queueID :=
           if decide (optionOf (ProviderOptions config) "queue_id" = "")
           then "jennah-simple"
           else optionOf (ProviderOptions config) "queue_id" in
         let targetURL := optionOf (ProviderOptions config) "target_url" in
         if decide (targetURL = "") then
           ret (None, Some (Errorf
             "target_url is required in ProviderOptions for Cloud Tasks provider"))
         else
           ret (Some {| client := c;
                        projectID := ProjectID config;
                        region := Region config;
                        queueID := queueID;
                        targetURL := targetURL |}, None)
     end)%go.

(** [client.ListTasks(...)] of the same client: the results the iterator
    gives to the successive calls of [Next()], up to [iterator.Done]
    (which is the end of the list). *)
Variable ListTasks : string -> World -> list (Task + error) * World.

(** The loop of [ListJobs]: it stops at the first error of the iterator,
    whatever the error is. *)
Fixpoint collectTaskNames (items : list (Task + error)) : list string :=
  match items with
  | inl task :: rest => Name task :: collectTaskNames rest
  | inr _ :: _ => []
  | [] => []
  end.

Definition ListJobs (p : GCPCloudTasksProvider World)
    : M World (list string * option error) :=
  let queuePath := "projects/" +:+ projectID p +:+ "/locations/" +:+ region p +:+
                   "/queues/" +:+ queueID p in
  (items <- call (ListTasks queuePath) ;;
   ret (collectTaskNames items, None))%go.

End construction.

Arguments NewGCPCloudTasksProvider {World} _ _ _.
Arguments ListJobs {World} _ _ _.

End cloudtasks.

(* ===================================================================== *)
(** * Package gcp: Cloud Run Jobs (internal/batch/gcp/cloudrunjobs.go)     *)
(* ===================================================================== *)

Module cloudrunjobs.
Import batch.

(** [runpb.Condition_State]. *)
Inductive Condition_State : Type :=
| Condition_STATE_UNSPECIFIED
| Condition_CONDITION_PENDING
| Condition_CONDITION_RECONCILING
| Condition_CONDITION_FAILED
| Condition_CONDITION_SUCCEEDED.

#[global] Instance Condition_State_eq_dec : EqDecision Condition_State.
Proof. solve_decision. Defined.

Record Condition : Type := { Type_ : string; State_ : Condition_State }.

(** An execution as the status mapper reads it; the counters are [int32].
    The condition list holds message pointers, [None] being nil. *)
Record Execution : Type := {
  ExecutionName : string;
  Conditions : list (option Condition);
  RunningCount : Z;
  SucceededCount : Z;
  FailedCount : Z
}.

(** The nil-safe getters of the generated code. *)
Definition GetType (c : option Condition) : string :=
  match c with Some c => Type_ c | None => "" end.

Definition GetState (c : option Condition) : Condition_State :=
  match c with Some c => State_ c | None => Condition_STATE_UNSPECIFIED end.

(** The body of the loop over the conditions: [Some st] when the condition
    makes the function return [st], [None] when the loop goes on. *)
Definition conditionStatus (condition : option Condition) : option JobStatus :=
  if decide (GetType condition = "Completed") then
    if decide (GetState condition = Condition_CONDITION_SUCCEEDED)
    then Some JobStatusCompleted else None
  else if decide (GetType condition = "Failed") then
    if decide (GetState condition = Condition_CONDITION_SUCCEEDED)
    then Some JobStatusFailed else None
  else if decide (GetType condition = "Cancelled") then
    if decide (GetState condition = Condition_CONDITION_SUCCEEDED)
    then Some JobStatusCancelled else None
  else None.

(** [for _, condition := range conditions { switch ... return }]. *)
Fixpoint scanConditions (conditions : list (option Condition)) : option JobStatus :=
  match conditions with
  | [] => None
  | condition :: rest =>
      match conditionStatus condition with
      | Some st => Some st
      | None => scanConditions rest
      end
  end.

(** [mapCloudRunStatus] maps a Cloud Run execution to a job status. *)
Definition mapCloudRunStatus (execution : option Execution) : JobStatus :=
  match execution with
  | None => JobStatusUnknown
  | Some e =>
      match scanConditions (Conditions e) with
      | Some st => st
      | None =>
          if (0 <? RunningCount e)%Z then JobStatusRunning
          else if (RunningCount e =? 0)%Z && (SucceededCount e =? 0)%Z &&
                  (FailedCount e =? 0)%Z
          then JobStatusPending
          else JobStatusRunning
      end
  end.

(** The job definition [SubmitJob] builds. *)
Record EnvVar : Type := { EnvName : string; EnvValue : string }.

Record Container : Type := {
  Image : string;
  Command : list string;
  Args : list string;
  Env : list EnvVar;
  Limits : gmap string string
}.

Record TaskTemplate : Type := {
  Containers : list Container;
  Timeout : option Z;
  MaxRetries : option Z;
  TemplateServiceAccount : string
}.

Record ExecutionTemplate : Type := {
  Template : TaskTemplate;
  TemplateTaskCount : Z;
  TemplateParallelism : Z
}.

Record Job : Type := {
  JobName : string;
  JobTemplate : option ExecutionTemplate;
  LaunchStage : string
}.

Record CreateJobRequest : Type := {
  Parent : string;
  JobId : string;
  ReqJob : Job
}.

(** [time.Second], in nanoseconds. *)
Definition Second : Z := 1000000000.

Definition buildContainer (config : JobConfig) : Container :=
  let command :=
    if decide (ContainerEntrypoint config ≠ "") then [ContainerEntrypoint config]
    else if decide (0 < length (Commands config)) then Commands config
    else [] in
  let args :=
    if decide (ContainerEntrypoint config ≠ "") then
      if decide (0 < length (Commands config)) then Commands config else []
    else [] in
  let env := (fun kv => {| EnvName := kv.1; EnvValue := kv.2 |}) <$>
             map_to_list (EnvVars config) in
  let limits : gmap string string :=
    match Resources config with
    | Some r =>
        let l1 : gmap string string :=
          if (0 <? CPUMillis r)%Z
          then <["cpu" := pretty (CPUMillis r) +:+ "m"]> ∅ else ∅ in
        if (0 <? MemoryMiB r)%Z
        then <["memory" := pretty (MemoryMiB r) +:+ "Mi"]> l1 else l1
    | None => ∅
    end in
  {| Image := ImageURI config; Command := command; Args := args;
     Env := env; Limits := limits |}.

Definition buildExecutionTemplate (config : JobConfig) : ExecutionTemplate :=
  let timeout :=
    match Resources config with
    | Some r => if (0 <? MaxRunDurationSeconds r)%Z
                then Some (mul64 (MaxRunDurationSeconds r) Second) else None
    | None => None
    end in
  let taskTemplate :=
    {| Containers := [buildContainer config];
       Timeout := timeout;
       MaxRetries := if (0 <? MaxRetryCount config)%Z
                     then Some (MaxRetryCount config) else None;
       TemplateServiceAccount := ServiceAccount config |} in
  {| Template := taskTemplate;
     TemplateTaskCount :=
       match TaskGroup config with
       | Some g => if (0 <? TaskCount g)%Z then int32 (TaskCount g) else 0%Z
       | None => 0%Z
       end;
     TemplateParallelism :=
       match TaskGroup config with
       | Some g => if (0 <? Parallelism g)%Z then int32 (Parallelism g) else 0%Z
       | None => 0%Z
       end |}.

Section provider.
Variable World : Type.

(** Handles of long-running operations: opaque to the adapter. *)
Variables CreateJobOperation RunJobOperation CancelExecutionOperation : Type.

(** How [%s] prints the execution metadata (generated code). *)
Variable executionString : Execution -> string.

(** The calls of [run.JobsClient] and [run.ExecutionsClient] the adapter
    makes; [ListExecutionsNext] is [ListExecutions(...)] followed by the
    first [Next()] of the iterator. *)
Record JobsClient : Type := {
  CreateJob : CreateJobRequest -> World -> (CreateJobOperation + error) * World;
  CreateJobWait : CreateJobOperation -> World -> (Job + error) * World;
  RunJob : string -> World -> (RunJobOperation + error) * World;
  RunJobMetadata : RunJobOperation -> World -> (Execution + error) * World
}.

Record ExecutionsClient : Type := {
  ListExecutionsNext : string -> World -> (Execution + error) * World;
  CancelExecution : string -> World -> (CancelExecutionOperation + error) * World;
  CancelExecutionWait : CancelExecutionOperation -> World -> (Execution + error) * World
}.

Record GCPCloudRunProvider : Type := {
  jobsClient : JobsClient;
  executionClient : ExecutionsClient;
  projectID : string;
  region : string
}.

(** The request of step 1. *)
Definition createJobRequest (p : GCPCloudRunProvider) (config : JobConfig)
    : CreateJobRequest :=
  let parent := "projects/" +:+ projectID p +:+ "/locations/" +:+ region p in
  {| Parent := parent;
     JobId := JobID config;
     ReqJob := {| JobName := "";
                  JobTemplate := Some (buildExecutionTemplate config);
                  LaunchStage := "GA" |} |}.

(** [SubmitJob]: step 1 creates the job and waits for the creation, step 2
    runs it and reads the operation's metadata without waiting. *)
Definition SubmitJob (p : GCPCloudRunProvider) (config : JobConfig)
    : M World (option JobResult * option error) :=
  let createReq := createJobRequest p config in
  (r <- call (CreateJob (jobsClient p) createReq) ;;
   match r with
   | inr err => ret (None, Some (Wrapf "failed to create Cloud Run job: " err))
   | inl createOp =>
   r <- call (CreateJobWait (jobsClient p) createOp) ;;
   match r with
   | inr err =>
       ret (None, Some (Wrapf "failed waiting for Cloud Run job creation: " err))
   | inl job =>
   logPrintf ("Cloud Run job created: " +:+ JobName job) ;;;
   r <- call (RunJob (jobsClient p) (JobName job)) ;;
   match r with
   | inr err => ret (None, Some (Wrapf "failed to run Cloud Run job: " err))
   | inl runOp =>
   r <- call (RunJobMetadata (jobsClient p) runOp) ;;
   match r with
   | inr err =>
       logPrintf ("Warning: failed to get execution metadata: " +:+ Error err) ;;;
       ret (Some {| CloudResourcePath := JobName job;
                    InitialStatus := JobStatusRunning |}, None)
   | inl execution =>
       logPrintf ("Cloud Run job execution started: " +:+ executionString execution) ;;;
       ret (Some {| CloudResourcePath := JobName job;
                    InitialStatus := JobStatusRunning |}, None)
   end end end end)%go.

Definition GetJobStatus (p : GCPCloudRunProvider) (cloudResourcePath : string)
    : M World (JobStatus * option error) :=
  (r <- call (ListExecutionsNext (executionClient p) cloudResourcePath) ;;
   match r with
   | inr err =>
       ret (JobStatusUnknown, Some (Wrapf "failed to list Cloud Run executions: " err))
   | inl execution => ret (mapCloudRunStatus (Some execution), None)
   end)%go.

(** [CancelJob] cancels the first listed execution and waits for the
    cancellation. *)
Definition CancelJob (p : GCPCloudRunProvider) (cloudResourcePath : string)
    : M World (option error) :=
  (r <- call (ListExecutionsNext (executionClient p) cloudResourcePath) ;;
   match r with
   | inr err => ret (Some (Wrapf "no executions found for Cloud Run job: " err))
   | inl execution =>
   r <- call (CancelExecution (executionClient p) (ExecutionName execution)) ;;
   match r with
   | inr err => ret (Some (Wrapf "failed to cancel Cloud Run execution: " err))
   | inl cancelOp =>
   r <- call (CancelExecutionWait (executionClient p) cancelOp) ;;
   match r with
   | inr err =>
       ret (Some (Wrapf "failed waiting for Cloud Run execution cancellation: " err))
   | inl _ =>
       logPrintf ("Cloud Run execution cancelled: " +:+ ExecutionName execution) ;;;
       ret None
   end end end)%go.

(** The adapter as a value of the [Provider] interface; [serviceType] is
    the constant [batch.ServiceTypeCloudRunJob]. *)
Definition asProvider (serviceType : string) (p : GCPCloudRunProvider)
    : Provider World :=
  {| batch.ServiceType := serviceType;
     batch.SubmitJob := SubmitJob p;
     batch.GetJobStatus := GetJobStatus p;
     batch.CancelJob := CancelJob p |}.

End provider.

Arguments CreateJob {World CreateJobOperation RunJobOperation} _ _ _.
Arguments CreateJobWait {World CreateJobOperation RunJobOperation} _ _ _.
Arguments RunJob {World CreateJobOperation RunJobOperation} _ _ _.
Arguments RunJobMetadata {World CreateJobOperation RunJobOperation} _ _ _.
Arguments ListExecutionsNext {World CancelExecutionOperation} _ _ _.
Arguments CancelExecution {World CancelExecutionOperation} _ _ _.
Arguments CancelExecutionWait {World CancelExecutionOperation} _ _ _.
Arguments jobsClient {World CreateJobOperation RunJobOperation CancelExecutionOperation} _.
Arguments executionClient {World CreateJobOperation RunJobOperation CancelExecutionOperation} _.
Arguments projectID {World CreateJobOperation RunJobOperation CancelExecutionOperation} _.
Arguments region {World CreateJobOperation RunJobOperation CancelExecutionOperation} _.
Arguments createJobRequest {World CreateJobOperation RunJobOperation CancelExecutionOperation} _ _.
Arguments SubmitJob {World CreateJobOperation RunJobOperation CancelExecutionOperation} _ _ _ _.
Arguments GetJobStatus {World CreateJobOperation RunJobOperation CancelExecutionOperation} _ _ _.
Arguments CancelJob {World CreateJobOperation RunJobOperation CancelExecutionOperation} _ _ _.
Arguments asProvider {World CreateJobOperation RunJobOperation CancelExecutionOperation} _ _ _.

Section construction.
Variable World : Type.
Variables CreateJobOperation RunJobOperation CancelExecutionOperation : Type.

(** [run.NewJobsClient], [run.NewExecutionsClient] and [jobsClient.Close()]
    (whose error the constructor drops). *)
Variable NewJobsClient
  : World -> (JobsClient World CreateJobOperation RunJobOperation + error) * World.
Variable NewExecutionsClient
  : World -> (ExecutionsClient World CancelExecutionOperation + error) * World.
Variable CloseJobsClient
  : JobsClient World CreateJobOperation RunJobOperation -> World -> unit * World.

Definition NewGCPCloudRunProvider (config : ProviderConfig)
    : M World (option (GCPCloudRunProvider World CreateJobOperation RunJobOperation
                         CancelExecutionOperation) * option error) :=
  if decide (ProjectID config = "") then
    ret (None, Some (Errorf "project_id is required for GCP Cloud Run Jobs provider"))
  else if decide (Region config = "") then
    ret (None, Some (Errorf "region is required for GCP Cloud Run Jobs provider"))
  else
    (r <- call NewJobsClient ;;
     match r with
     | inr err => ret (None, Some (Wrapf "failed to create Cloud Run Jobs client: " err))
     | inl jc =>
     r <- call NewExecutionsClient ;;
     match r with
     | inr err =>
         call (CloseJobsClient jc) ;;;
         ret (None, Some (Wrapf "failed to create Cloud Run Executions client: " err))
     | inl ec =>
         ret (Some {| jobsClient := jc; executionClient := ec;
                      projectID := ProjectID config;
                      region := Region config |}, None)
     end end)%go.

(** [jobsClient.ListJobs(...)]: the results the iterator gives to the
    successive calls of [Next()], up to [iterator.Done]. *)
Variable ListJobsCall : string -> World -> list (Job + error) * World.

(** The test of the loop: the job is one of Jennah's when the last piece of
    its name, split on "/", starts with "jennah-". *)
Definition isJennahJob (name : string) : bool :=
  let parts := Split name "/"%char in
  bool_decide (0 < length parts) && HasPrefix (List.last parts "") "jennah-".

(** The loop of [ListJobs]: it stops at the first error of the iterator. *)
Fixpoint collectJobNames (items : list (Job + error)) : list string :=
  match items with
  | inl job :: rest =>
      if isJennahJob (JobName job)
      then JobName job :: collectJobNames rest
      else collectJobNames rest
  | inr _ :: _ => []
  | [] => []
  end.

Definition ListJobs (p : GCPCloudRunProvider World CreateJobOperation RunJobOperation
                           CancelExecutionOperation)
    : M World (list string * option error) :=
  let parent := "projects/" +:+ projectID p +:+ "/locations/" +:+ region p in
  (items <- call (ListJobsCall parent) ;;
   ret (collectJobNames items, None))%go.

End construction.

Arguments NewGCPCloudRunProvider
  {World CreateJobOperation RunJobOperation CancelExecutionOperation} _ _ _ _ _.
Arguments ListJobs
  {World CreateJobOperation RunJobOperation CancelExecutionOperation} _ _ _.

End cloudrunjobs.

End gcp.

(* ===================================================================== *)
(** * Specification vocabulary and example backends                       *)
(* ===================================================================== *)

(** A small registry for the examples: a provider that answers every call
    with a fixed result over a backend without state. *)
Definition stubProvider : batch.Provider unit :=
  {| batch.ServiceType := "stub";
     batch.SubmitJob := fun config =>
       ret (Some {| batch.CloudResourcePath := "stub/" +:+ batch.JobID config;
                    batch.InitialStatus := batch.JobStatusPending |}, None);
     batch.GetJobStatus := fun _ => ret (batch.JobStatusRunning, None);
     batch.CancelJob := fun _ => ret None |}.

Definition stubConfig : batch.JobConfig :=
  {| batch.JobID := "job-1"; batch.ImageURI := "gcr.io/p/img";
     batch.Commands := []; batch.ContainerEntrypoint := "";
     batch.EnvVars := ∅; batch.Resources := None; batch.TaskGroup := None;
     batch.MaxRetryCount := 0; batch.ServiceAccount := "" |}.

Definition stubSvcString (svc : router.AssignedService) : string :=
  match svc with
  | router.AssignedServiceCloudTasks => "CLOUD_TASKS"
  | router.AssignedServiceCloudRunJob => "CLOUD_RUN_JOB"
  | router.AssignedServiceCloudBatch => "CLOUD_BATCH"
  end.

Definition stubState : State unit := mkState [] tt.

Section DispatcherVocabulary.
Import batch dispatcher.
Variable World : Type.

(** An option that registers a provider: one of the three [With...]
    constructors, applied to a provider (not to a nil interface value). *)
Inductive registers : Option World -> Prop :=
| registers_tasks (p : Provider World) : registers (WithCloudTasks (Some p))
| registers_run (p : Provider World) : registers (WithCloudRunJobs (Some p))
| registers_batch (p : Provider World) : registers (WithCloudBatch (Some p)).

(** No registered interface value is nil. *)
Definition nonNil (d : Dispatcher World) : Prop :=
  forall svc p, providers d !! svc = Some p -> p <> None.

End DispatcherVocabulary.

Arguments registers {World} _.
Arguments nonNil {World} _.

Section CloudTasksVocabulary.
Import batch gcp.cloudtasks.
Local Open Scope Z_scope.

(** A task whose last attempt got a response with the given code. *)
Definition taskWithCode (code : Z) : Task :=
  {| Name := "projects/p/locations/r/queues/jennah-simple/tasks/1";
     TaskHttpRequest := None;
     LastAttempt := Some {| ResponseStatus := Some {| Code := code; Message := "" |} |} |}.

End CloudTasksVocabulary.

Section CloudRunVocabulary.
Import batch gcp.cloudrunjobs.
Local Open Scope Z_scope.

(** A terminal condition in a succeeded state, and the status it stands
    for. *)
Inductive isTerminal : option Condition -> JobStatus -> Prop :=
| terminal_completed :
    isTerminal (Some {| Type_ := "Completed"; State_ := Condition_CONDITION_SUCCEEDED |})
               JobStatusCompleted
| terminal_failed :
    isTerminal (Some {| Type_ := "Failed"; State_ := Condition_CONDITION_SUCCEEDED |})
               JobStatusFailed
| terminal_cancelled :
    isTerminal (Some {| Type_ := "Cancelled"; State_ := Condition_CONDITION_SUCCEEDED |})
               JobStatusCancelled.

(** The statuses of a finished job. *)
Definition terminalStatus (st : JobStatus) : Prop :=
  st = JobStatusCompleted \/ st = JobStatusFailed \/ st = JobStatusCancelled.

(** The fallback on the task counters, as a table. *)
Definition countsStatus (e : Execution) : JobStatus :=
  if decide (0 < RunningCount e) then JobStatusRunning
  else if decide (RunningCount e = 0 /\ SucceededCount e = 0 /\ FailedCount e = 0)
       then JobStatusPending
       else JobStatusRunning.

(** The tie-break rule as the specification words it: the terminal
    conditions are looked for in the fixed order Completed, Failed,
    Cancelled, wherever they stand in the list; the counters decide only
    when none of them is succeeded. *)
Definition hasSucceeded (type : string) (e : Execution) : bool :=
  existsb (fun c => bool_decide (GetType c = type /\
                                 GetState c = Condition_CONDITION_SUCCEEDED))
          (Conditions e).

Definition fixedOrderStatus (e : Execution) : JobStatus :=
  if hasSucceeded "Completed" e then JobStatusCompleted
  else if hasSucceeded "Failed" e then JobStatusFailed
  else if hasSucceeded "Cancelled" e then JobStatusCancelled
  else countsStatus e.

Definition condition (type : string) (state : Condition_State) : option Condition :=
  Some {| Type_ := type; State_ := state |}.

(** Two snapshots in which a Completed and a Failed condition are both
    succeeded, in either order, with one task finished. *)
Definition failedThenCompleted : Execution :=
  {| ExecutionName := "projects/p/locations/r/jobs/jennah-1/executions/e1";
     Conditions := [condition "Failed" Condition_CONDITION_SUCCEEDED;
                    condition "Completed" Condition_CONDITION_SUCCEEDED];
     RunningCount := 0; SucceededCount := 1; FailedCount := 0 |}.

Definition completedThenFailed : Execution :=
  {| ExecutionName := "projects/p/locations/r/jobs/jennah-1/executions/e1";
     Conditions := [condition "Completed" Condition_CONDITION_SUCCEEDED;
                    condition "Failed" Condition_CONDITION_SUCCEEDED];
     RunningCount := 0; SucceededCount := 0; FailedCount := 1 |}.

End CloudRunVocabulary.

(** A queue backend for the examples: the world is the list of the names
    of the tasks in the queue; deleting or reading a task that is not in
    it is refused with a not-found error. *)
Definition errNotFound : error :=
  Errorf "rpc error: code = NotFound desc = Requested entity was not found.".

Definition queueClient : gcp.cloudtasks.Client (list string) :=
  {| gcp.cloudtasks.CreateTask := fun req w =>
       let name := gcp.cloudtasks.Parent req +:+ "/tasks/" +:+ pretty (length w) in
       (inl {| gcp.cloudtasks.Name := name;
               gcp.cloudtasks.TaskHttpRequest :=
                 gcp.cloudtasks.TaskHttpRequest (gcp.cloudtasks.ReqTask req);
               gcp.cloudtasks.LastAttempt := None |}, w ++ [name]);
     gcp.cloudtasks.GetTask := fun name w =>
       if decide (name ∈ w)
       then (inl {| gcp.cloudtasks.Name := name;
                    gcp.cloudtasks.TaskHttpRequest := None;
                    gcp.cloudtasks.LastAttempt := None |}, w)
       else (inr errNotFound, w);
     gcp.cloudtasks.DeleteTask := fun name w =>
       if decide (name ∈ w)
       then (None, filter (fun n => n ≠ name) w)
       else (Some errNotFound, w) |}.

Definition queueProvider : gcp.cloudtasks.GCPCloudTasksProvider (list string) :=
  {| gcp.cloudtasks.client := queueClient;
     gcp.cloudtasks.projectID := "p";
     gcp.cloudtasks.region := "r";
     gcp.cloudtasks.queueID := "jennah-simple";
     gcp.cloudtasks.targetURL := "https://worker.example/run" |}.

Definition queuedTask : string := "projects/p/locations/r/queues/jennah-simple/tasks/0".

(** A Cloud Run backend for the examples: the job is created under the
    requested id, and running it is refused. *)
Definition errQuota : error :=
  Errorf "rpc error: code = ResourceExhausted desc = quota exceeded".

Definition createdJob (req : gcp.cloudrunjobs.CreateJobRequest)
    : gcp.cloudrunjobs.Job :=
  {| gcp.cloudrunjobs.JobName :=
       gcp.cloudrunjobs.Parent req +:+ "/jobs/" +:+ gcp.cloudrunjobs.JobId req;
     gcp.cloudrunjobs.JobTemplate :=
       gcp.cloudrunjobs.JobTemplate (gcp.cloudrunjobs.ReqJob req);
     gcp.cloudrunjobs.LaunchStage :=
       gcp.cloudrunjobs.LaunchStage (gcp.cloudrunjobs.ReqJob req) |}.

Definition refusingJobsClient
    : gcp.cloudrunjobs.JobsClient unit gcp.cloudrunjobs.CreateJobRequest unit :=
  {| gcp.cloudrunjobs.CreateJob := fun req w => (inl req, w);
     gcp.cloudrunjobs.CreateJobWait := fun op w => (inl (createdJob op), w);
     gcp.cloudrunjobs.RunJob := fun name w => (inr errQuota, w);
     gcp.cloudrunjobs.RunJobMetadata := fun op w => (inr errQuota, w) |}.

Definition refusingExecutionsClient : gcp.cloudrunjobs.ExecutionsClient unit unit :=
  {| gcp.cloudrunjobs.ListExecutionsNext := fun parent w => (inr errNotFound, w);
     gcp.cloudrunjobs.CancelExecution := fun name w => (inr errNotFound, w);
     gcp.cloudrunjobs.CancelExecutionWait := fun op w => (inr errNotFound, w) |}.

Definition refusingProvider
    : gcp.cloudrunjobs.GCPCloudRunProvider unit gcp.cloudrunjobs.CreateJobRequest
        unit unit :=
  {| gcp.cloudrunjobs.jobsClient := refusingJobsClient;
     gcp.cloudrunjobs.executionClient := refusingExecutionsClient;
     gcp.cloudrunjobs.projectID := "p";
     gcp.cloudrunjobs.region := "r" |}.

Definition mediumConfig : batch.JobConfig :=
  {| batch.JobID := "jennah-1"; batch.ImageURI := "gcr.io/p/img";
     batch.Commands := ["run"]; batch.ContainerEntrypoint := "";
     batch.EnvVars := ∅;
     batch.Resources := Some {| batch.CPUMillis := 2000; batch.MemoryMiB := 1024;
                                batch.MaxRunDurationSeconds := 1200 |};
     batch.TaskGroup := None;
     batch.MaxRetryCount := 0; batch.ServiceAccount := "" |}.

Section RegistryLog.
Import batch dispatcher.
Variable World : Type.
Variable svcString : router.AssignedService -> string.

(** The line [New] writes for a registered provider. *)
Definition registeredLine (svc : router.AssignedService) (p : Provider World) : string :=
  "Dispatcher: registered " +:+ svcString svc +:+
  " provider (service_type=" +:+ ServiceType p +:+ ")".

(** The lines for the entries of a registry that hold a provider. *)
Definition registryLines (l : list (router.AssignedService * option (Provider World)))
    : list string :=
  omap (fun sp => registeredLine sp.1 <$> sp.2) l.

End RegistryLog.

Arguments registeredLine {World} _ _ _.
Arguments registryLines {World} _ _.

Section Contracts.
Import batch.
Variable World : Type.

(** What a Go caller relies on when it reads the result only after the
    error was found nil: the call returns, with a result or an error and
    never both or neither. *)
Definition submitContract (m : M World (option JobResult * option error)) : Prop :=
  forall s, exists res err s',
    m s = Done (res, err) s' /\ (res = None <-> err <> None).

(** The status Unknown is returned with an error, and only then. *)
Definition statusContract (m : M World (JobStatus * option error)) : Prop :=
  forall s, exists st err s',
    m s = Done (st, err) s' /\ (st = JobStatusUnknown <-> err <> None).

End Contracts.

Arguments submitContract {World} _.
Arguments statusContract {World} _.

(** A listing for the examples: two tasks, then an error of the iterator,
    then a task that is never reached. *)
Definition listedTask (name : string) : gcp.cloudtasks.Task :=
  {| gcp.cloudtasks.Name := name;
     gcp.cloudtasks.TaskHttpRequest := None;
     gcp.cloudtasks.LastAttempt := None |}.

Definition brokenListing (path : string) (w : unit)
    : list (gcp.cloudtasks.Task + error) * unit :=
  ([inl (listedTask (path +:+ "/tasks/a")); inl (listedTask (path +:+ "/tasks/b"));
    inr errNotFound; inl (listedTask (path +:+ "/tasks/c"))], w).

Definition unitQueueProvider : gcp.cloudtasks.GCPCloudTasksProvider unit :=
  {| gcp.cloudtasks.client :=
       {| gcp.cloudtasks.CreateTask := fun req w => (inr errNotFound, w);
          gcp.cloudtasks.GetTask := fun name w => (inr errNotFound, w);
          gcp.cloudtasks.DeleteTask := fun name w => (Some errNotFound, w) |};
     gcp.cloudtasks.projectID := "p";
     gcp.cloudtasks.region := "r";
     gcp.cloudtasks.queueID := "q";
     gcp.cloudtasks.targetURL := "https://worker.example/run" |}.

(** Whether a byte occurs in a string. *)
Fixpoint hasByte (c : Ascii.ascii) (s : string) : bool :=
  match s with
  | EmptyString => false
  | String a s' => bool_decide (a = c) || hasByte c s'
  end.

(** The pieces before the last one, each followed by the separator: what
    stands before the last piece of a split string. *)
Fixpoint prefixDir (sep : Ascii.ascii) (init : list string) : string :=
  match init with
  | [] => EmptyString
  | part :: rest => part +:+ String sep (prefixDir sep rest)
  end.

(** A Cloud Run backend for the examples that creates and runs the job
    but cannot give the metadata of the run; and a listing of three jobs,
    an error of the iterator, and a job that is never reached. *)
Definition acceptingJobsClient
    : gcp.cloudrunjobs.JobsClient unit gcp.cloudrunjobs.CreateJobRequest string :=
  {| gcp.cloudrunjobs.CreateJob := fun req w => (inl req, w);
     gcp.cloudrunjobs.CreateJobWait := fun op w => (inl (createdJob op), w);
     gcp.cloudrunjobs.RunJob := fun name w => (inl (name +:+ "/operations/1"), w);
     gcp.cloudrunjobs.RunJobMetadata := fun op w => (inr errNotFound, w) |}.

Definition acceptingProvider
    : gcp.cloudrunjobs.GCPCloudRunProvider unit gcp.cloudrunjobs.CreateJobRequest
        string unit :=
  {| gcp.cloudrunjobs.jobsClient := acceptingJobsClient;
     gcp.cloudrunjobs.executionClient := refusingExecutionsClient;
     gcp.cloudrunjobs.projectID := "p";
     gcp.cloudrunjobs.region := "r" |}.

Definition listedJob (name : string) : gcp.cloudrunjobs.Job :=
  {| gcp.cloudrunjobs.JobName := name;
     gcp.cloudrunjobs.JobTemplate := None;
     gcp.cloudrunjobs.LaunchStage := "GA" |}.

Definition mixedListing (parent : string) (w : unit)
    : list (gcp.cloudrunjobs.Job + error) * unit :=
  ([inl (listedJob (parent +:+ "/jobs/jennah-1"));
    inl (listedJob (parent +:+ "/jobs/other"));
    inl (listedJob (parent +:+ "/jobs/jennah-2"));
    inr errNotFound;
    inl (listedJob (parent +:+ "/jobs/jennah-3"))], w).

Section CloudTasksRequest.
Import batch gcp.cloudtasks.
Variable World : Type.

(** The payload [SubmitJob] of the Cloud Tasks adapter encodes, and the
    request it sends for an encoded payload. *)
Definition payloadOf (config : JobConfig) : taskPayload :=
  {| payloadJobID := JobID config; payloadImageURI := ImageURI config;
     payloadCommands := Commands config; payloadEnvVars := EnvVars config |}.

Definition createTaskRequest (p : GCPCloudTasksProvider World) (config : JobConfig)
    (body : string) : CreateTaskRequest :=
  {| Parent := "projects/" +:+ projectID p +:+ "/locations/" +:+ region p +:+
               "/queues/" +:+ queueID p;
     ReqTask :=
       {| Name := "";
          TaskHttpRequest := Some
            {| HttpMethod := "POST";
               Url := targetURL p;
               Headers := {[ "Content-Type" := "application/json" ]};
               Body := body;
               OidcServiceAccountEmail := ServiceAccount config |};
          LastAttempt := None |} |}.

End CloudTasksRequest.

Arguments createTaskRequest {World} _ _ _.

(* ===================================================================== *)
(** * Running a computation step by step                                  *)
(* ===================================================================== *)

Section Steps.
Context {World : Type}.

Lemma bind_Done {A B : Type} (m : M World A) (k : A -> M World B)
    (s s' : State World) (a : A) :
  m s = Done a s' -> bind m k s = k a s'.
Proof. intros Hm. unfold bind. rewrite Hm. reflexivity. Qed.

Lemma bind_Panic {A B : Type} (m : M World A) (k : A -> M World B)
    (s : State World) :
  m s = Panic -> bind m k s = Panic.
Proof. intros Hm. unfold bind. rewrite Hm. reflexivity. Qed.

Lemma call_Done {A : Type} (f : World -> A * World) (s : State World)
    (a : A) (w : World) :
  f (world s) = (a, w) -> call f s = Done a (mkState (logged s) w).
Proof. intros Hf. unfold call. rewrite Hf. reflexivity. Qed.

Lemma bind_inv {A B : Type} (m : M World A) (k : A -> M World B)
    (s s' : State World) (b : B) :
  bind m k s = Done b s' ->
  exists a s1, m s = Done a s1 /\ k a s1 = Done b s'.
Proof.
  unfold bind. destruct (m s) as [a s1 | ]; [ | discriminate ].
  intros Hk. exists a, s1. split; [ reflexivity | exact Hk ].
Qed.

End Steps.

(* ===================================================================== *)
(** * Properties of the Router                                            *)
(* ===================================================================== *)

Section RouterProperties.
Import router.
Local Open Scope Z_scope.

Lemma within_spec cpu mem dur a b c :
  within cpu mem dur a b c = true <-> cpu <= a /\ mem <= b /\ dur <= c.
Proof.
  unfold within. rewrite !andb_true_iff, !Z.leb_le. tauto.
Qed.

Lemma within_false cpu mem dur a b c :
  within cpu mem dur a b c = false <-> a < cpu \/ b < mem \/ c < dur.
Proof.
  unfold within. rewrite !andb_false_iff, !Z.leb_gt. tauto.
Qed.

(** C1.  The Router is total: every triple (cpu-millis, memory-MiB,
    duration-seconds) gets exactly one tier.  Triples at or below
    (500, 512, 600) in every dimension get the Cloud Tasks tier; triples at
    or below (4000, 8192, 3600) that exceed the first limits in some
    dimension get the Cloud Run Jobs tier; all other triples get the Cloud
    Batch tier; a field left at zero is within the lowest limit, so
    (0, 0, 0) gets the Cloud Tasks tier. *)
Theorem Router_total_and_tiered (cpu mem dur : Z) :
  (exists t, Router cpu mem dur = t /\ forall t', Router cpu mem dur = t' -> t' = t) /\
  (cpu <= 500 /\ mem <= 512 /\ dur <= 600 ->
     Router cpu mem dur = AssignedServiceCloudTasks) /\
  (cpu <= 4000 /\ mem <= 8192 /\ dur <= 3600 ->
   500 < cpu \/ 512 < mem \/ 600 < dur ->
     Router cpu mem dur = AssignedServiceCloudRunJob) /\
  (4000 < cpu \/ 8192 < mem \/ 3600 < dur ->
     Router cpu mem dur = AssignedServiceCloudBatch) /\
  Router 0 0 0 = AssignedServiceCloudTasks.
Proof.
  split; [ exists (Router cpu mem dur); split; [ reflexivity | congruence ] | ].
  unfold Router.
  destruct (within cpu mem dur 500 512 600) eqn:Hlow;
    destruct (within cpu mem dur 4000 8192 3600) eqn:Hmid.
  all: try apply within_spec in Hlow; try apply within_false in Hlow.
  all: try apply within_spec in Hmid; try apply within_false in Hmid.
  all: repeat split; try reflexivity; intros; exfalso; lia.
Qed.

Lemma Router_total_and_tiered_witness :
  Router 200 256 60 = AssignedServiceCloudTasks /\
  Router 500 512 600 = AssignedServiceCloudTasks /\
  Router 501 512 600 = AssignedServiceCloudRunJob /\
  Router 4000 8192 3600 = AssignedServiceCloudRunJob /\
  Router 8000 16384 0 = AssignedServiceCloudBatch /\
  Router 0 0 3601 = AssignedServiceCloudBatch.
Proof.
  split; [ apply (Router_total_and_tiered 200 256 60); lia | ].
  split; [ apply (Router_total_and_tiered 500 512 600); lia | ].
  split; [ apply (Router_total_and_tiered 501 512 600); lia | ].
  split; [ apply (Router_total_and_tiered 4000 8192 3600); lia | ].
  split; [ apply (Router_total_and_tiered 8000 16384 0); lia | ].
  apply (Router_total_and_tiered 0 0 3601); lia.
Defined.

End RouterProperties.

(* ===================================================================== *)
(** * Properties of the Dispatcher                                        *)
(* ===================================================================== *)

Section DispatcherProperties.
Import batch router dispatcher.
Variable World : Type.
Variable svcString : AssignedService -> string.

(** The logging loop of [New] finishes, and leaves the backend alone, when
    no registered interface value is nil. *)
Lemma log_registered_done (l : list (AssignedService * option (Provider World)))
    (s : State World) :
  Forall (fun sp => sp.2 <> None) l ->
  exists s',
    forEach l (fun '(svc, p) =>
       st <- invoke p (fun impl => ret (ServiceType impl)) ;;
       logPrintf ("Dispatcher: registered " +:+ svcString svc +:+
                  " provider (service_type=" +:+ st +:+ ")"))%go s = Done tt s'
    /\ world s' = world s.
Proof.
  intros Hl. revert s.
  induction Hl as [ | [svc [impl | ]] l Hx _ IH ]; intros s; simpl.
  - exists s. split; reflexivity.
  - unfold bind at 1. simpl. unfold bind at 1. simpl.
    destruct (IH (mkState (logged s ++
      ["Dispatcher: registered " +:+ svcString svc +:+
       " provider (service_type=" +:+ ServiceType impl +:+ ")"]) (world s)))
      as (s' & Hrun & Hw).
    exists s'. split; [ exact Hrun | exact Hw ].
  - simpl in Hx. congruence.
Qed.

(** The loop panics as soon as it meets a nil interface value. *)
Lemma log_registered_nil (l : list (AssignedService * option (Provider World)))
    (s : State World) :
  Exists (fun sp => sp.2 = None) l ->
  forEach l (fun '(svc, p) =>
     st <- invoke p (fun impl => ret (ServiceType impl)) ;;
     logPrintf ("Dispatcher: registered " +:+ svcString svc +:+
                " provider (service_type=" +:+ st +:+ ")"))%go s = Panic.
Proof.
  intros Hl. revert s.
  induction l as [ | [svc [impl | ]] l IH ]; intros s; simpl.
  - inversion Hl.
  - unfold bind at 1. simpl. unfold bind at 1. simpl.
    apply IH. inversion Hl as [ ? ? Hx | ]; [ simpl in Hx; congruence | assumption ].
  - reflexivity.
Qed.

(** A dispatcher that [New] returns holds no nil interface value. *)
Lemma New_registry_non_nil (opts : list (Option World)) (s s' : State World)
    (d : Dispatcher World) (e : option error) :
  New svcString opts s = Done (Some d, e) s' -> nonNil d.
Proof.
  unfold New. case_decide as Hsize; [ unfold ret; congruence | ].
  intros Hnew svc p Hsvc ->.
  apply bind_inv in Hnew as ([] & s1 & Hloop & Hret).
  unfold ret in Hret. injection Hret as <- _ _.
  rewrite log_registered_nil in Hloop; [ discriminate | ].
  apply Exists_exists. exists (svc, None). split; [ | reflexivity ].
  apply elem_of_map_to_list. exact Hsvc.
Qed.

(** C2.  For every dispatcher and every tier with no registered provider,
    [ProviderFor] returns a nil provider and the not-registered error, and
    [SubmitJob], [GetJobStatus] and [CancelJob] for that tier return that
    same error: each call finishes (no panic), calls no provider, and
    leaves log and backend as they were. *)
Theorem unregistered_tier_not_registered (d : Dispatcher World) (svc : AssignedService)
    (config : JobConfig) (path : string) (s : State World) :
  providers d !! svc = None ->
  ProviderFor svcString d svc = (None, Some (errNotRegistered svcString svc)) /\
  SubmitJob svcString d svc config s
    = Done (None, Some (errNotRegistered svcString svc)) s /\
  GetJobStatus svcString d svc path s
    = Done (JobStatusUnknown, Some (errNotRegistered svcString svc)) s /\
  CancelJob svcString d svc path s
    = Done (Some (errNotRegistered svcString svc)) s.
Proof.
  intros Hnone.
  unfold SubmitJob, GetJobStatus, CancelJob, ProviderFor.
  rewrite Hnone. repeat split; reflexivity.
Qed.

(** Options that register providers leave no nil interface value in the
    registry, and leave it non-empty. *)
Lemma registers_nonNil (opts : list (Option World)) (d : Dispatcher World) :
  Forall registers opts -> nonNil d ->
  nonNil (foldl (fun d opt => opt d) d opts).
Proof.
  intros Hopts. revert d.
  induction Hopts as [ | opt opts Hopt _ IH ]; intros d Hd; simpl; [ exact Hd | ].
  apply IH. intros svc p.
  destruct Hopt as [q | q | q]; simpl; rewrite lookup_insert;
    case_decide; intros Hp; simplify_eq; eauto.
Qed.

Lemma registers_non_empty (opts : list (Option World)) (d : Dispatcher World) :
  Forall registers opts -> opts <> [] \/ providers d <> ∅ ->
  providers (foldl (fun d opt => opt d) d opts) <> ∅.
Proof.
  intros Hopts. revert d.
  induction Hopts as [ | opt opts Hopt _ IH ]; intros d Hd; simpl.
  - destruct Hd as [Hd | Hd]; [ congruence | exact Hd ].
  - apply IH. right. destruct Hopt; simpl; apply insert_non_empty.
Qed.

(** C3, amended.  [New] with an empty registry after the options (in
    particular with no option at all) returns no dispatcher and the
    configuration error "at least one provider must be configured"; with a
    non-empty registry of providers (no nil interface value) it returns the
    dispatcher and a nil error, having only written to the log; that is
    the case whenever at least one option is given and each option
    registers a provider. *)
Theorem New_needs_a_provider (opts : list (Option World)) (s : State World) :
  (size (providers (applyOptions opts)) = 0 ->
     New svcString opts s = Done (None, Some errNoProvider) s) /\
  (size (providers (applyOptions opts)) <> 0 -> nonNil (applyOptions opts) ->
     exists s', New svcString opts s = Done (Some (applyOptions opts), None) s'
                /\ world s' = world s) /\
  (opts <> [] -> Forall registers opts ->
     exists s', New svcString opts s = Done (Some (applyOptions opts), None) s'
                /\ world s' = world s).
Proof.
  assert (Hsome : size (providers (applyOptions opts)) <> 0 ->
                  nonNil (applyOptions opts) ->
                  exists s', New svcString opts s
                               = Done (Some (applyOptions opts), None) s'
                             /\ world s' = world s).
  { unfold New. intros Hsize Hnonnil. case_decide; [ contradiction | ].
    destruct (log_registered_done (map_to_list (providers (applyOptions opts))) s)
      as (s' & Hrun & Hw).
    - apply Forall_forall. intros [svc p] Hin. simpl.
      apply (Hnonnil svc). apply elem_of_map_to_list. exact Hin.
    - exists s'. split; [ | exact Hw ].
      rewrite (bind_Done _ _ _ _ _ Hrun). reflexivity. }
  split; [ | split ].
  - unfold New. intros Hsize. case_decide; [ reflexivity | contradiction ].
  - exact Hsome.
  - intros Hne Hopts. apply Hsome.
    + rewrite map_size_empty_iff. apply registers_non_empty; auto.
    + apply registers_nonNil; [ exact Hopts | ].
      intros svc p. simpl. rewrite lookup_empty. discriminate.
Qed.

(** C4.  For a tier with a registered provider, [SubmitJob], [GetJobStatus]
    and [CancelJob] of the dispatcher are the provider's method, called
    once on the same arguments: result, error, final state and even a panic
    are the provider's.  [SubmitJob] writes its routing line to the log
    before the call. *)
Theorem registered_tier_forwards (d : Dispatcher World) (svc : AssignedService)
    (p : Provider World) (config : JobConfig) (path : string) (s : State World) :
  providers d !! svc = Some (Some p) ->
  SubmitJob svcString d svc config s
    = batch.SubmitJob p config
        (mkState (logged s ++ ["Dispatcher: routing job " +:+ JobID config +:+
                               " to " +:+ svcString svc]) (world s)) /\
  GetJobStatus svcString d svc path s = batch.GetJobStatus p path s /\
  CancelJob svcString d svc path s = batch.CancelJob p path s.
Proof.
  intros Hsome.
  unfold SubmitJob, GetJobStatus, CancelJob, ProviderFor.
  rewrite Hsome. repeat split; reflexivity.
Qed.

(** C10.  Whenever [GetJobStatus] of the dispatcher finds no provider for
    the tier ([ProviderFor] returns an error), the status it returns with
    that error is [JobStatusUnknown]. *)
Theorem GetJobStatus_unknown_without_provider (d : Dispatcher World)
    (svc : AssignedService) (path : string) (s : State World) (err : error) :
  (ProviderFor svcString d svc).2 = Some err ->
  GetJobStatus svcString d svc path s = Done (JobStatusUnknown, Some err) s.
Proof.
  unfold GetJobStatus.
  destruct (ProviderFor svcString d svc) as [p [e | ]]; simpl; intros Herr.
  - injection Herr as ->. reflexivity.
  - discriminate.
Qed.

End DispatcherProperties.

Lemma unregistered_tier_not_registered_witness :
  dispatcher.SubmitJob stubSvcString
    (dispatcher.applyOptions [dispatcher.WithCloudTasks (Some stubProvider)])
    router.AssignedServiceCloudBatch stubConfig stubState
  = Done (None, Some (Errorf "dispatcher: no provider registered for service CLOUD_BATCH"))
         stubState.
Proof.
  apply (unregistered_tier_not_registered unit stubSvcString
           (dispatcher.applyOptions [dispatcher.WithCloudTasks (Some stubProvider)])
           router.AssignedServiceCloudBatch stubConfig "" stubState).
  vm_compute. reflexivity.
Defined.

Lemma New_needs_a_provider_witness :
  dispatcher.New stubSvcString [] stubState
    = Done (None, Some dispatcher.errNoProvider) stubState /\
  exists s',
    dispatcher.New stubSvcString
      [dispatcher.WithCloudTasks (Some stubProvider);
       dispatcher.WithCloudBatch (Some stubProvider)] stubState
      = Done (Some (dispatcher.applyOptions
                      [dispatcher.WithCloudTasks (Some stubProvider);
                       dispatcher.WithCloudBatch (Some stubProvider)]), None) s'
    /\ world s' = world stubState.
Proof.
  split.
  - apply (New_needs_a_provider unit stubSvcString [] stubState).
    vm_compute. reflexivity.
  - apply (proj2 (proj2 (New_needs_a_provider unit stubSvcString
             [dispatcher.WithCloudTasks (Some stubProvider);
              dispatcher.WithCloudBatch (Some stubProvider)] stubState))).
    + discriminate.
    + repeat constructor.
Defined.

(** C3, as stated: two options are given, the first registers a provider
    for the Cloud Tasks tier and the second a nil provider for the Cloud Run
    tier; one provider is registered, and the construction does not
    succeed: [New] panics when it logs the nil entry. *)
Lemma New_with_a_provider_can_panic :
  dispatcher.providers
    (dispatcher.applyOptions [dispatcher.WithCloudTasks (Some stubProvider);
                              dispatcher.WithCloudRunJobs None])
    !! router.AssignedServiceCloudTasks = Some (Some stubProvider) /\
  dispatcher.New stubSvcString
    [dispatcher.WithCloudTasks (Some stubProvider); dispatcher.WithCloudRunJobs None]
    stubState = Panic.
Proof. split; vm_compute; reflexivity. Qed.

Lemma registered_tier_forwards_witness :
  dispatcher.SubmitJob stubSvcString
    (dispatcher.applyOptions [dispatcher.WithCloudTasks (Some stubProvider)])
    router.AssignedServiceCloudTasks stubConfig stubState
  = Done (Some {| batch.CloudResourcePath := "stub/job-1";
                  batch.InitialStatus := batch.JobStatusPending |}, None)
         (mkState ["Dispatcher: routing job job-1 to CLOUD_TASKS"] tt).
Proof.
  refine (eq_trans
    (proj1 (registered_tier_forwards unit stubSvcString
              (dispatcher.applyOptions [dispatcher.WithCloudTasks (Some stubProvider)])
              router.AssignedServiceCloudTasks stubProvider stubConfig "" stubState
              _)) _).
  - vm_compute. reflexivity.
  - reflexivity.
Defined.

Lemma GetJobStatus_unknown_without_provider_witness :
  dispatcher.GetJobStatus stubSvcString
    (dispatcher.applyOptions [dispatcher.WithCloudTasks (Some stubProvider)])
    router.AssignedServiceCloudRunJob "projects/p/locations/r/jobs/j" stubState
  = Done (batch.JobStatusUnknown,
          Some (Errorf "dispatcher: no provider registered for service CLOUD_RUN_JOB"))
         stubState.
Proof.
  apply (GetJobStatus_unknown_without_provider unit stubSvcString).
  vm_compute. reflexivity.
Defined.

(** The cheap path end to end: a job asking for 200 mCPU, 256 MiB and 60 s
    is routed to the Cloud Tasks tier, the dispatcher hands it to the Cloud
    Tasks adapter, and the result holds the path of the new task and the
    status Pending. *)
Example cheap_job_end_to_end :
  dispatcher.SubmitJob stubSvcString
    (dispatcher.applyOptions
       [dispatcher.WithCloudTasks
          (Some (gcp.cloudtasks.asProvider (fun _ => inl "{}") "cloud-tasks"
                   queueProvider))])
    (router.Router 200 256 60) stubConfig (mkState [] [])
  = Done (Some {| batch.CloudResourcePath := queuedTask;
                  batch.InitialStatus := batch.JobStatusPending |}, None)
         (mkState ["Dispatcher: routing job job-1 to CLOUD_TASKS";
                   "Cloud Tasks task created: " +:+ queuedTask]
                  [queuedTask]).
Proof. vm_compute. reflexivity. Qed.

(* ===================================================================== *)
(** * Properties of the status mappers                                    *)
(* ===================================================================== *)

Section CloudTasksStatus.
Import batch gcp.cloudtasks.
Local Open Scope Z_scope.

(** C7.  The Cloud Tasks mapper follows the last attempt: a response whose
    code is in [200, 300) maps to Completed, a response with any other
    code maps to Failed, a last attempt without a response maps to
    Running, and a task without a last attempt maps to Pending. *)
Theorem mapCloudTasksStatus_by_last_attempt (t : Task) :
  (forall a st, LastAttempt t = Some a -> ResponseStatus a = Some st ->
     200 <= Code st < 300 -> mapCloudTasksStatus (Some t) = JobStatusCompleted) /\
  (forall a st, LastAttempt t = Some a -> ResponseStatus a = Some st ->
     ~ (200 <= Code st < 300) -> mapCloudTasksStatus (Some t) = JobStatusFailed) /\
  (forall a, LastAttempt t = Some a -> ResponseStatus a = None ->
     mapCloudTasksStatus (Some t) = JobStatusRunning) /\
  (LastAttempt t = None -> mapCloudTasksStatus (Some t) = JobStatusPending).
Proof.
  unfold mapCloudTasksStatus.
  repeat split.
  - intros a st -> -> Hcode.
    replace (200 <=? Code st) with true by (symmetry; apply Z.leb_le; lia).
    replace (Code st <? 300) with true by (symmetry; apply Z.ltb_lt; lia).
    reflexivity.
  - intros a st -> -> Hcode.
    destruct (200 <=? Code st) eqn:Hlo; [ | reflexivity ].
    destruct (Code st <? 300) eqn:Hhi; [ | reflexivity ].
    apply Z.leb_le in Hlo. apply Z.ltb_lt in Hhi. exfalso. apply Hcode. lia.
  - intros a -> ->. reflexivity.
  - intros ->. reflexivity.
Qed.

Lemma mapCloudTasksStatus_by_last_attempt_witness :
  mapCloudTasksStatus (Some (taskWithCode 204)) = JobStatusCompleted /\
  mapCloudTasksStatus (Some (taskWithCode 300)) = JobStatusFailed /\
  mapCloudTasksStatus (Some (taskWithCode 0)) = JobStatusFailed /\
  mapCloudTasksStatus
    (Some {| Name := "t"; TaskHttpRequest := None;
             LastAttempt := Some {| ResponseStatus := None |} |}) = JobStatusRunning /\
  mapCloudTasksStatus
    (Some {| Name := "t"; TaskHttpRequest := None; LastAttempt := None |})
    = JobStatusPending.
Proof.
  split; [ | split; [ | split; [ | split ] ] ].
  - eapply (mapCloudTasksStatus_by_last_attempt (taskWithCode 204));
      [ reflexivity | reflexivity | simpl; lia ].
  - eapply (mapCloudTasksStatus_by_last_attempt (taskWithCode 300));
      [ reflexivity | reflexivity | simpl; lia ].
  - eapply (mapCloudTasksStatus_by_last_attempt (taskWithCode 0));
      [ reflexivity | reflexivity | simpl; lia ].
  - eapply (mapCloudTasksStatus_by_last_attempt
              {| Name := "t"; TaskHttpRequest := None;
                 LastAttempt := Some {| ResponseStatus := None |} |});
      reflexivity.
  - apply (mapCloudTasksStatus_by_last_attempt
             {| Name := "t"; TaskHttpRequest := None; LastAttempt := None |}).
    reflexivity.
Defined.

End CloudTasksStatus.

Section CloudRunStatus.
Import batch gcp.cloudrunjobs.
Local Open Scope Z_scope.

Lemma conditionStatus_isTerminal (c : option Condition) (st : JobStatus) :
  conditionStatus c = Some st <-> isTerminal c st.
Proof.
  split.
  - unfold conditionStatus.
    destruct c as [[ty state] | ]; simpl;
      repeat case_decide; intros Hst; simplify_eq; constructor.
  - intros Hterm. destruct Hterm; reflexivity.
Qed.

Lemma conditionStatus_None (c : option Condition) :
  (forall st, ~ isTerminal c st) -> conditionStatus c = None.
Proof.
  intros Hno. destruct (conditionStatus c) as [st | ] eqn:Hc; [ | reflexivity ].
  apply conditionStatus_isTerminal in Hc. destruct (Hno st Hc).
Qed.

Lemma scanConditions_none (l : list (option Condition)) :
  Forall (fun c => forall st, ~ isTerminal c st) l -> scanConditions l = None.
Proof.
  induction 1 as [ | c l Hc _ IH ]; simpl; [ reflexivity | ].
  rewrite (conditionStatus_None c Hc). exact IH.
Qed.

Lemma scanConditions_first (pre post : list (option Condition))
    (c : option Condition) (st : JobStatus) :
  Forall (fun c' => forall st', ~ isTerminal c' st') pre ->
  isTerminal c st ->
  scanConditions (pre ++ c :: post) = Some st.
Proof.
  intros Hpre Hc.
  induction Hpre as [ | c' pre Hc' _ IH ]; simpl.
  - apply conditionStatus_isTerminal in Hc. rewrite Hc. reflexivity.
  - rewrite (conditionStatus_None c' Hc'). exact IH.
Qed.

Lemma scanConditions_Some (l : list (option Condition)) (st : JobStatus) :
  scanConditions l = Some st -> exists c, c ∈ l /\ isTerminal c st.
Proof.
  induction l as [ | c l IH ]; simpl; [ discriminate | ].
  destruct (conditionStatus c) as [st' | ] eqn:Hc.
  - intros [= ->]. exists c. split; [ left | apply conditionStatus_isTerminal, Hc ].
  - intros Hl. destruct (IH Hl) as (c' & Hin & Hterm).
    exists c'. split; [ right; exact Hin | exact Hterm ].
Qed.

Lemma scanConditions_is_Some (l : list (option Condition)) (c : option Condition)
    (st : JobStatus) :
  c ∈ l -> isTerminal c st -> exists st', scanConditions l = Some st'.
Proof.
  intros Hin Hterm.
  induction l as [ | c' l IH ]; [ inversion Hin | ]. simpl.
  destruct (conditionStatus c') as [st' | ] eqn:Hc'; [ exists st'; reflexivity | ].
  apply IH. inversion Hin as [ | ? ? ? Hin' ]; subst; [ | exact Hin' ].
  apply conditionStatus_isTerminal in Hterm. congruence.
Qed.

Lemma countsStatus_fallback (e : Execution) :
  scanConditions (Conditions e) = None ->
  mapCloudRunStatus (Some e) = countsStatus e.
Proof.
  intros Hscan. unfold mapCloudRunStatus, countsStatus. rewrite Hscan.
  destruct (0 <? RunningCount e) eqn:Hrun.
  - apply Z.ltb_lt in Hrun. case_decide; [ reflexivity | contradiction ].
  - apply Z.ltb_ge in Hrun. case_decide; [ lia | ].
    destruct (RunningCount e =? 0) eqn:H0; simpl.
    + destruct (SucceededCount e =? 0) eqn:H1; simpl.
      * destruct (FailedCount e =? 0) eqn:H2; simpl.
        -- case_decide; [ reflexivity | ].
           apply Z.eqb_eq in H0, H1, H2. tauto.
        -- apply Z.eqb_neq in H2. case_decide; [ tauto | reflexivity ].
      * apply Z.eqb_neq in H1. case_decide; [ tauto | reflexivity ].
    + apply Z.eqb_neq in H0. case_decide; [ tauto | reflexivity ].
Qed.

(** C5, as stated: on a snapshot whose list holds a succeeded Failed
    condition before a succeeded Completed condition, the mapper returns
    Failed, while the fixed order Completed, Failed, Cancelled gives
    Completed. *)
Lemma mapCloudRunStatus_not_fixed_order :
  mapCloudRunStatus (Some failedThenCompleted) = JobStatusFailed /\
  fixedOrderStatus failedThenCompleted = JobStatusCompleted.
Proof. split; reflexivity. Qed.

(** C5, amended.  The mapper looks at the terminal conditions first, in the
    order of the condition list: the first condition of the list that is a
    succeeded Completed, Failed or Cancelled condition gives the status,
    whatever the task counters are; only when no condition of the list is
    one does the mapper fall back to the counters (Running when a task
    runs, Pending when all three counters are zero, Running otherwise). *)
Theorem mapCloudRunStatus_first_terminal_in_list (e : Execution) :
  (forall pre c post st,
     Conditions e = pre ++ c :: post ->
     Forall (fun c' => forall st', ~ isTerminal c' st') pre ->
     isTerminal c st ->
     mapCloudRunStatus (Some e) = st /\
     forall running succeeded failed,
       mapCloudRunStatus
         (Some {| ExecutionName := ExecutionName e; Conditions := Conditions e;
                  RunningCount := running; SucceededCount := succeeded;
                  FailedCount := failed |}) = st) /\
  (Forall (fun c => forall st, ~ isTerminal c st) (Conditions e) ->
     (0 < RunningCount e -> mapCloudRunStatus (Some e) = JobStatusRunning) /\
     (RunningCount e = 0 -> SucceededCount e = 0 -> FailedCount e = 0 ->
        mapCloudRunStatus (Some e) = JobStatusPending) /\
     (RunningCount e <= 0 ->
      ~ (RunningCount e = 0 /\ SucceededCount e = 0 /\ FailedCount e = 0) ->
        mapCloudRunStatus (Some e) = JobStatusRunning)).
Proof.
  split.
  - intros pre c post st Hlist Hpre Hc.
    pose proof (scanConditions_first pre post c st Hpre Hc) as Hscan.
    rewrite <- Hlist in Hscan.
    split; [ | intros running succeeded failed ];
      unfold mapCloudRunStatus; simpl; rewrite Hscan; reflexivity.
  - intros Hnone. apply scanConditions_none in Hnone.
    rewrite (countsStatus_fallback e Hnone). unfold countsStatus.
    repeat split.
    + intros Hrun. case_decide; [ reflexivity | contradiction ].
    + intros H0 H1 H2. case_decide; [ lia | ].
      case_decide; [ reflexivity | tauto ].
    + intros Hrun Hnz. case_decide; [ lia | ].
      case_decide; [ contradiction | reflexivity ].
Qed.

Lemma mapCloudRunStatus_first_terminal_in_list_witness :
  mapCloudRunStatus (Some failedThenCompleted) = JobStatusFailed /\
  mapCloudRunStatus
    (Some {| ExecutionName := "e"; Conditions := [None; condition "Started" Condition_CONDITION_SUCCEEDED];
             RunningCount := 0; SucceededCount := 0; FailedCount := 2 |})
    = JobStatusRunning.
Proof.
  split.
  - apply (proj1 (mapCloudRunStatus_first_terminal_in_list failedThenCompleted)
             [] (condition "Failed" Condition_CONDITION_SUCCEEDED)
             [condition "Completed" Condition_CONDITION_SUCCEEDED] JobStatusFailed).
    + reflexivity.
    + constructor.
    + constructor.
  - apply (proj2 (mapCloudRunStatus_first_terminal_in_list
             {| ExecutionName := "e";
                Conditions := [None; condition "Started" Condition_CONDITION_SUCCEEDED];
                RunningCount := 0; SucceededCount := 0; FailedCount := 2 |})).
    + repeat constructor; intros st Hterm; inversion Hterm.
    + simpl. lia.
    + simpl. lia.
Defined.

End CloudRunStatus.

Section StatusPrecedence.
Import batch.
Local Open Scope Z_scope.

Lemma isTerminal_terminalStatus (c : option gcp.cloudrunjobs.Condition)
    (st : JobStatus) :
  isTerminal c st -> terminalStatus st.
Proof. unfold terminalStatus. destruct 1; tauto. Qed.

Lemma countsStatus_running_or_pending (e : gcp.cloudrunjobs.Execution) :
  countsStatus e = JobStatusRunning \/ countsStatus e = JobStatusPending.
Proof. unfold countsStatus. repeat case_decide; tauto. Qed.

(** C6, as stated: a snapshot holds a succeeded Failed condition (a
    terminal failure) after a succeeded Completed condition, and one failed
    task; the mapper returns Completed, not Failed. *)
Lemma terminal_failure_does_not_win :
  condition "Failed" gcp.cloudrunjobs.Condition_CONDITION_SUCCEEDED
    ∈ gcp.cloudrunjobs.Conditions completedThenFailed /\
  isTerminal
    (condition "Failed" gcp.cloudrunjobs.Condition_CONDITION_SUCCEEDED)
    JobStatusFailed /\
  gcp.cloudrunjobs.mapCloudRunStatus (Some completedThenFailed) = JobStatusCompleted.
Proof.
  split; [ right; left | split; [ constructor | reflexivity ] ].
Qed.

(** C6, amended.  Both status mappers are total functions to one
    [JobStatus], and return Unknown only for a nil snapshot.  For Cloud
    Tasks a response of the last attempt wins (Completed for a code in
    [200, 300), Failed for any other), then a last attempt without response
    gives Running, then a task without last attempt gives Pending.  For
    Cloud Run a succeeded terminal condition wins over the counters, and
    among several the first one in the condition list wins (a failure does
    not override a success); without one, a running task gives Running,
    all counters at zero give Pending, and anything else Running. *)
Theorem status_mappers_precedence :
  (forall t, gcp.cloudtasks.mapCloudTasksStatus t = JobStatusUnknown <-> t = None) /\
  (forall e, gcp.cloudrunjobs.mapCloudRunStatus e = JobStatusUnknown <-> e = None) /\
  (forall t a st,
     gcp.cloudtasks.LastAttempt t = Some a ->
     gcp.cloudtasks.ResponseStatus a = Some st ->
     gcp.cloudtasks.mapCloudTasksStatus (Some t) = JobStatusCompleted \/
     gcp.cloudtasks.mapCloudTasksStatus (Some t) = JobStatusFailed) /\
  (forall e c st,
     c ∈ gcp.cloudrunjobs.Conditions e -> isTerminal c st ->
     terminalStatus (gcp.cloudrunjobs.mapCloudRunStatus (Some e)) /\
     exists c', c' ∈ gcp.cloudrunjobs.Conditions e /\
                isTerminal c' (gcp.cloudrunjobs.mapCloudRunStatus (Some e))) /\
  (forall e,
     Forall (fun c => forall st, ~ isTerminal c st) (gcp.cloudrunjobs.Conditions e) ->
     (0 < gcp.cloudrunjobs.RunningCount e ->
        gcp.cloudrunjobs.mapCloudRunStatus (Some e) = JobStatusRunning) /\
     (gcp.cloudrunjobs.mapCloudRunStatus (Some e) = JobStatusPending ->
        gcp.cloudrunjobs.RunningCount e = 0 /\
        gcp.cloudrunjobs.SucceededCount e = 0 /\
        gcp.cloudrunjobs.FailedCount e = 0) /\
     (gcp.cloudrunjobs.mapCloudRunStatus (Some e) = JobStatusRunning \/
      gcp.cloudrunjobs.mapCloudRunStatus (Some e) = JobStatusPending)) /\
  (forall t a st,
     gcp.cloudtasks.LastAttempt t = Some a ->
     gcp.cloudtasks.ResponseStatus a = Some st ->
     (gcp.cloudtasks.mapCloudTasksStatus (Some t) = JobStatusCompleted <->
      200 <= gcp.cloudtasks.Code st < 300)) /\
  (forall t a,
     gcp.cloudtasks.LastAttempt t = Some a ->
     gcp.cloudtasks.ResponseStatus a = None ->
     gcp.cloudtasks.mapCloudTasksStatus (Some t) = JobStatusRunning) /\
  (forall t,
     gcp.cloudtasks.LastAttempt t = None ->
     gcp.cloudtasks.mapCloudTasksStatus (Some t) = JobStatusPending) /\
  (forall e pre c post st,
     gcp.cloudrunjobs.Conditions e = pre ++ c :: post ->
     Forall (fun c' => forall st', ~ isTerminal c' st') pre ->
     isTerminal c st ->
     gcp.cloudrunjobs.mapCloudRunStatus (Some e) = st) /\
  (forall e,
     Forall (fun c => forall st, ~ isTerminal c st) (gcp.cloudrunjobs.Conditions e) ->
     gcp.cloudrunjobs.RunningCount e = 0 ->
     gcp.cloudrunjobs.SucceededCount e = 0 ->
     gcp.cloudrunjobs.FailedCount e = 0 ->
     gcp.cloudrunjobs.mapCloudRunStatus (Some e) = JobStatusPending).
Proof.
  split; [ | split; [ | split; [ | split; [ | split; [ | split; [ | split;
    [ | split; [ | split ] ] ] ] ] ] ] ].
  - intros [t | ]; split; try reflexivity; try discriminate.
    unfold gcp.cloudtasks.mapCloudTasksStatus.
    destruct (gcp.cloudtasks.LastAttempt t) as [a | ]; [ | discriminate ].
    destruct (gcp.cloudtasks.ResponseStatus a) as [st | ]; [ | discriminate ].
    destruct (_ && _); discriminate.
  - intros [e | ]; split; try reflexivity; try discriminate.
    destruct (gcp.cloudrunjobs.scanConditions (gcp.cloudrunjobs.Conditions e))
      as [st | ] eqn:Hscan.
    + unfold gcp.cloudrunjobs.mapCloudRunStatus. rewrite Hscan. intros ->.
      apply scanConditions_Some in Hscan as (c & _ & Hterm). inversion Hterm.
    + rewrite (countsStatus_fallback e Hscan).
      destruct (countsStatus_running_or_pending e) as [-> | ->]; discriminate.
  - intros t a st Ha Hst. unfold gcp.cloudtasks.mapCloudTasksStatus.
    rewrite Ha, Hst. destruct (_ && _); tauto.
  - intros e c st Hin Hterm.
    destruct (scanConditions_is_Some _ c st Hin Hterm) as (st' & Hscan).
    unfold gcp.cloudrunjobs.mapCloudRunStatus. rewrite Hscan.
    apply scanConditions_Some in Hscan as (c' & Hin' & Hterm').
    split; [ exact (isTerminal_terminalStatus c' st' Hterm') | ].
    exists c'. split; assumption.
  - intros e Hnone. apply scanConditions_none in Hnone.
    rewrite (countsStatus_fallback e Hnone). unfold countsStatus.
    repeat split; repeat case_decide; intros; try tauto; try discriminate; lia.
  - intros t a st Ha Hst. unfold gcp.cloudtasks.mapCloudTasksStatus.
    rewrite Ha, Hst. simpl.
    destruct (200 <=? gcp.cloudtasks.Code st) eqn:Hlo;
      destruct (gcp.cloudtasks.Code st <? 300) eqn:Hhi; simpl;
      try apply Z.leb_le in Hlo; try apply Z.leb_gt in Hlo;
      try apply Z.ltb_lt in Hhi; try apply Z.ltb_ge in Hhi;
      split; intros H; try reflexivity; try discriminate; lia.
  - intros t a Ha Hst. unfold gcp.cloudtasks.mapCloudTasksStatus.
    rewrite Ha, Hst. reflexivity.
  - intros t Ha. unfold gcp.cloudtasks.mapCloudTasksStatus.
    rewrite Ha. reflexivity.
  - intros e pre c post st Hlist Hpre Hc.
    pose proof (scanConditions_first pre post c st Hpre Hc) as Hscan.
    rewrite <- Hlist in Hscan.
    unfold gcp.cloudrunjobs.mapCloudRunStatus. rewrite Hscan. reflexivity.
  - intros e Hnone H0 H1 H2. apply scanConditions_none in Hnone.
    rewrite (countsStatus_fallback e Hnone). unfold countsStatus.
    case_decide; [ lia | ]. case_decide; [ reflexivity | tauto ].
Qed.

Lemma status_mappers_precedence_witness :
  terminalStatus (gcp.cloudrunjobs.mapCloudRunStatus (Some completedThenFailed)) /\
  (gcp.cloudtasks.mapCloudTasksStatus (Some (taskWithCode 503)) = JobStatusCompleted \/
   gcp.cloudtasks.mapCloudTasksStatus (Some (taskWithCode 503)) = JobStatusFailed) /\
  gcp.cloudrunjobs.mapCloudRunStatus (Some completedThenFailed) = JobStatusCompleted /\
  gcp.cloudtasks.mapCloudTasksStatus
    (Some {| gcp.cloudtasks.Name := "t"; gcp.cloudtasks.TaskHttpRequest := None;
             gcp.cloudtasks.LastAttempt :=
               Some {| gcp.cloudtasks.ResponseStatus := None |} |})
  = JobStatusRunning.
Proof.
  destruct status_mappers_precedence
    as (_ & _ & Htasks & Hrun & _ & _ & Hrunning & _ & Hfirst & _).
  split; [ | split; [ | split ] ].
  - apply (Hrun completedThenFailed
             (condition "Completed"
                gcp.cloudrunjobs.Condition_CONDITION_SUCCEEDED)
             JobStatusCompleted).
    + left.
    + constructor.
  - eapply (Htasks (taskWithCode 503)); reflexivity.
  - apply (Hfirst completedThenFailed []
             (condition "Completed" gcp.cloudrunjobs.Condition_CONDITION_SUCCEEDED)
             [condition "Failed" gcp.cloudrunjobs.Condition_CONDITION_SUCCEEDED]
             JobStatusCompleted).
    + reflexivity.
    + constructor.
    + constructor.
  - eapply Hrunning; reflexivity.
Defined.

End StatusPrecedence.

(* ===================================================================== *)
(** * Properties of cancellation                                          *)
(* ===================================================================== *)

Section Cancellation.
Import batch.

(** C8, as stated: over a queue that holds one task, [CancelJob] is called
    twice in a row on that task's path; the first call deletes the task
    and returns nil, the second returns an error, the backend's not-found
    error wrapped. *)
Lemma CancelJob_twice_second_fails :
  (r1 <- gcp.cloudtasks.CancelJob queueProvider queuedTask ;;
   r2 <- gcp.cloudtasks.CancelJob queueProvider queuedTask ;;
   ret (r1, r2))%go (mkState [] [queuedTask])
  = Done (None, Some (Wrapf "failed to delete Cloud Tasks task: " errNotFound))
         (mkState ["Cloud Tasks task deleted (cancelled): " +:+ queuedTask] []).
Proof. vm_compute. reflexivity. Qed.

(** C8, amended.  [CancelJob] of an adapter always returns, and returns nil
    exactly when the backend calls it makes succeed: for Cloud Tasks the
    deletion of the task, for Cloud Run the listing of the job's first
    execution, the cancellation of that execution and the wait for it.
    An error of the backend is returned wrapped under the message of the
    call that failed, and no later call is made, whatever state the job is
    in: the adapters do not turn an error for a cancelled or finished job
    into a success. *)
Theorem CancelJob_succeeds_iff_backend_does :
  (forall (World : Type) (p : gcp.cloudtasks.GCPCloudTasksProvider World)
          (path : string) (s : State World),
     exists r s',
       gcp.cloudtasks.CancelJob p path s = Done r s' /\
       (r = None <->
        (gcp.cloudtasks.DeleteTask (gcp.cloudtasks.client p) path (world s)).1 = None) /\
       (forall err,
          (gcp.cloudtasks.DeleteTask (gcp.cloudtasks.client p) path (world s)).1 = Some err ->
          r = Some (Wrapf "failed to delete Cloud Tasks task: " err)) /\
       world s' = (gcp.cloudtasks.DeleteTask (gcp.cloudtasks.client p) path (world s)).2 /\
       (r = None ->
        logged s' = logged s ++ ["Cloud Tasks task deleted (cancelled): " +:+ path]) /\
       (r <> None -> logged s' = logged s)) /\
  (forall (World Op1 Op2 Op3 : Type)
          (p : gcp.cloudrunjobs.GCPCloudRunProvider World Op1 Op2 Op3)
          (path : string) (s : State World),
     exists r s',
       gcp.cloudrunjobs.CancelJob p path s = Done r s' /\
       (r = None <->
        exists execution w1 cancelOp w2 cancelled w3,
          gcp.cloudrunjobs.ListExecutionsNext (gcp.cloudrunjobs.executionClient p)
            path (world s) = (inl execution, w1) /\
          gcp.cloudrunjobs.CancelExecution (gcp.cloudrunjobs.executionClient p)
            (gcp.cloudrunjobs.ExecutionName execution) w1 = (inl cancelOp, w2) /\
          gcp.cloudrunjobs.CancelExecutionWait (gcp.cloudrunjobs.executionClient p)
            cancelOp w2 = (inl cancelled, w3)) /\
       (forall err w1,
          gcp.cloudrunjobs.ListExecutionsNext (gcp.cloudrunjobs.executionClient p)
            path (world s) = (inr err, w1) ->
          r = Some (Wrapf "no executions found for Cloud Run job: " err) /\
          s' = mkState (logged s) w1) /\
       (forall execution w1 err w2,
          gcp.cloudrunjobs.ListExecutionsNext (gcp.cloudrunjobs.executionClient p)
            path (world s) = (inl execution, w1) ->
          gcp.cloudrunjobs.CancelExecution (gcp.cloudrunjobs.executionClient p)
            (gcp.cloudrunjobs.ExecutionName execution) w1 = (inr err, w2) ->
          r = Some (Wrapf "failed to cancel Cloud Run execution: " err) /\
          s' = mkState (logged s) w2) /\
       (forall execution w1 cancelOp w2 err w3,
          gcp.cloudrunjobs.ListExecutionsNext (gcp.cloudrunjobs.executionClient p)
            path (world s) = (inl execution, w1) ->
          gcp.cloudrunjobs.CancelExecution (gcp.cloudrunjobs.executionClient p)
            (gcp.cloudrunjobs.ExecutionName execution) w1 = (inl cancelOp, w2) ->
          gcp.cloudrunjobs.CancelExecutionWait (gcp.cloudrunjobs.executionClient p)
            cancelOp w2 = (inr err, w3) ->
          r = Some (Wrapf "failed waiting for Cloud Run execution cancellation: " err) /\
          s' = mkState (logged s) w3) /\
       (forall execution w1 cancelOp w2 cancelled w3,
          gcp.cloudrunjobs.ListExecutionsNext (gcp.cloudrunjobs.executionClient p)
            path (world s) = (inl execution, w1) ->
          gcp.cloudrunjobs.CancelExecution (gcp.cloudrunjobs.executionClient p)
            (gcp.cloudrunjobs.ExecutionName execution) w1 = (inl cancelOp, w2) ->
          gcp.cloudrunjobs.CancelExecutionWait (gcp.cloudrunjobs.executionClient p)
            cancelOp w2 = (inl cancelled, w3) ->
          r = None /\
          s' = mkState (logged s ++ ["Cloud Run execution cancelled: " +:+
                                     gcp.cloudrunjobs.ExecutionName execution]) w3)).
Proof.
  split.
  - intros World p path s.
    unfold gcp.cloudtasks.CancelJob, bind, call.
    destruct (gcp.cloudtasks.DeleteTask _ path (world s)) as [[err | ] w]; simpl.
    + eexists; eexists. split; [ reflexivity | ].
      split; [ split; discriminate | ].
      split; [ intros err' [= ->]; reflexivity | ].
      split; [ reflexivity | ]. split; [ discriminate | reflexivity ].
    + eexists; eexists. split; [ reflexivity | ].
      split; [ split; reflexivity | ].
      split; [ discriminate | ].
      split; [ reflexivity | ]. split; [ reflexivity | congruence ].
  - intros World Op1 Op2 Op3 p path s.
    unfold gcp.cloudrunjobs.CancelJob, bind, call.
    destruct (gcp.cloudrunjobs.ListExecutionsNext _ path (world s))
      as [[execution | err] w1]; simpl.
    2: { eexists; eexists. split; [ reflexivity | ].
         split; [ split; [ discriminate
                         | intros (? & ? & ? & ? & ? & ? & [=] & _) ] | ].
         split; [ intros ? ? [= <- <-]; split; reflexivity | ].
         repeat split; intros; discriminate. }
    destruct (gcp.cloudrunjobs.CancelExecution _ _ w1) as [[cancelOp | err] w2] eqn:Hc;
      simpl.
    2: { eexists; eexists. split; [ reflexivity | ].
         split; [ split; [ discriminate | ] | ].
         { intros (? & ? & ? & ? & ? & ? & [= <- <-] & Hc' & _).
           rewrite Hc in Hc'. discriminate. }
         split; [ intros; discriminate | ].
         split; [ intros ? ? ? ? [= <- <-] Hc'; rewrite Hc in Hc';
                  injection Hc' as <- <-; split; reflexivity | ].
         split; intros ? ? ? ? ? ? [= <- <-] Hc'; rewrite Hc in Hc'; discriminate. }
    destruct (gcp.cloudrunjobs.CancelExecutionWait _ cancelOp w2)
      as [[cancelled | err] w3] eqn:Hw; simpl.
    2: { eexists; eexists. split; [ reflexivity | ].
         split; [ split; [ discriminate | ] | ].
         { intros (? & ? & ? & ? & ? & ? & [= <- <-] & Hc' & Hw').
           rewrite Hc in Hc'. injection Hc' as <- <-.
           rewrite Hw in Hw'. discriminate. }
         split; [ intros; discriminate | ].
         split; [ intros ? ? ? ? [= <- <-] Hc'; rewrite Hc in Hc'; discriminate | ].
         split; intros ? ? ? ? ? ? [= <- <-] Hc' Hw'; rewrite Hc in Hc';
           injection Hc' as <- <-; rewrite Hw in Hw';
           [ injection Hw' as <- <-; split; reflexivity | discriminate ]. }
    eexists; eexists. split; [ reflexivity | ].
    split; [ split; [ intros _ | reflexivity ] | ].
    { exists execution, w1, cancelOp, w2, cancelled, w3. auto. }
    split; [ intros; discriminate | ].
    split; [ intros ? ? ? ? [= <- <-] Hc'; rewrite Hc in Hc'; discriminate | ].
    split; intros ? ? ? ? ? ? [= <- <-] Hc' Hw'; rewrite Hc in Hc';
      injection Hc' as <- <-; rewrite Hw in Hw';
      [ discriminate | injection Hw' as <- <-; split; reflexivity ].
Qed.

End Cancellation.

(* ===================================================================== *)
(** * Properties of the two-step submission                               *)
(* ===================================================================== *)

Section TwoStepSubmission.
Import batch.
Variables World Op1 Op2 Op3 : Type.
Variable executionString : gcp.cloudrunjobs.Execution -> string.

(** C9, amended.  When the job was created (step 1 and the wait for it
    succeeded) and running it fails, [SubmitJob] returns no result and an
    error that names the failed step: its message is "failed to run Cloud
    Run job: " followed by the backend's message, and it wraps the
    backend's error.  The name of the created job is written to the log
    ("Cloud Run job created: ..."); the error carries no more of it than the
    backend's own error does. *)
Theorem SubmitJob_run_step_failure
    (p : gcp.cloudrunjobs.GCPCloudRunProvider World Op1 Op2 Op3)
    (config : JobConfig) (s : State World)
    (createOp : Op1) (job : gcp.cloudrunjobs.Job) (err : error) (w1 w2 w3 : World) :
  gcp.cloudrunjobs.CreateJob (gcp.cloudrunjobs.jobsClient p)
    (gcp.cloudrunjobs.createJobRequest p config) (world s) = (inl createOp, w1) ->
  gcp.cloudrunjobs.CreateJobWait (gcp.cloudrunjobs.jobsClient p) createOp w1
    = (inl job, w2) ->
  gcp.cloudrunjobs.RunJob (gcp.cloudrunjobs.jobsClient p)
    (gcp.cloudrunjobs.JobName job) w2 = (inr err, w3) ->
  exists e,
    gcp.cloudrunjobs.SubmitJob executionString p config s
      = Done (None, Some e)
             (mkState (logged s ++ ["Cloud Run job created: " +:+
                                    gcp.cloudrunjobs.JobName job]) w3) /\
    Error e = "failed to run Cloud Run job: " +:+ Error err /\
    Unwrap e = Some err.
Proof.
  intros Hcreate Hwait Hrun.
  exists (Wrapf "failed to run Cloud Run job: " err).
  split; [ | split; reflexivity ].
  unfold gcp.cloudrunjobs.SubmitJob.
  rewrite (bind_Done _ _ _ _ _ (call_Done _ s _ _ Hcreate)).
  rewrite (bind_Done _ _ _ _ _ (call_Done _ (mkState (logged s) w1) _ _ Hwait)).
  unfold bind at 1, logPrintf at 1. simpl.
  rewrite (bind_Done _ _ _ _ _
             (call_Done _ (mkState (logged s ++ _) w2) _ _ Hrun)).
  reflexivity.
Qed.

End TwoStepSubmission.

(** C9, as stated: the job "projects/p/locations/r/jobs/jennah-1" is
    created and the run step fails; [SubmitJob] returns no result, and the
    message of its error does not contain the name of the created job. *)
Lemma SubmitJob_error_omits_handle :
  gcp.cloudrunjobs.SubmitJob (fun _ => "") refusingProvider mediumConfig (mkState [] tt)
    = Done (None, Some (Wrapf "failed to run Cloud Run job: " errQuota))
           (mkState ["Cloud Run job created: projects/p/locations/r/jobs/jennah-1"] tt) /\
  Contains (Error (Wrapf "failed to run Cloud Run job: " errQuota))
           "projects/p/locations/r/jobs/jennah-1" = false.
Proof. split; vm_compute; reflexivity. Qed.

Lemma SubmitJob_run_step_failure_witness :
  exists e,
    gcp.cloudrunjobs.SubmitJob (fun _ => "") refusingProvider mediumConfig (mkState [] tt)
      = Done (None, Some e)
             (mkState ["Cloud Run job created: projects/p/locations/r/jobs/jennah-1"] tt) /\
    Error e = "failed to run Cloud Run job: " +:+ Error errQuota /\
    Unwrap e = Some errQuota.
Proof.
  apply (SubmitJob_run_step_failure unit gcp.cloudrunjobs.CreateJobRequest unit unit
           (fun _ => "") refusingProvider mediumConfig (mkState [] tt)
           (gcp.cloudrunjobs.createJobRequest refusingProvider mediumConfig)
           (createdJob (gcp.cloudrunjobs.createJobRequest refusingProvider mediumConfig))
           errQuota tt tt tt); reflexivity.
Defined.

(* ===================================================================== *)
(** * Further properties of the Dispatcher                                *)
(* ===================================================================== *)

Section DispatcherRegistry.
Import batch router dispatcher.
Variable World : Type.
Variable svcString : AssignedService -> string.

Lemma applyOptions_snoc (opts : list (Option World)) (opt : Option World) :
  applyOptions (opts ++ [opt]) = opt (applyOptions opts).
Proof. unfold applyOptions. rewrite foldl_app. reflexivity. Qed.

(** X1.  The option given last for a tier decides what [ProviderFor] finds
    for that tier, whatever the options before it registered, and it
    changes the lookup of no other tier. *)
Theorem last_registration_wins (opts : list (Option World))
    (p : option (Provider World)) (svc : AssignedService) :
  ProviderFor svcString (applyOptions (opts ++ [WithCloudTasks p]))
    AssignedServiceCloudTasks = (p, None) /\
  ProviderFor svcString (applyOptions (opts ++ [WithCloudRunJobs p]))
    AssignedServiceCloudRunJob = (p, None) /\
  ProviderFor svcString (applyOptions (opts ++ [WithCloudBatch p]))
    AssignedServiceCloudBatch = (p, None) /\
  (svc <> AssignedServiceCloudTasks ->
     ProviderFor svcString (applyOptions (opts ++ [WithCloudTasks p])) svc
     = ProviderFor svcString (applyOptions opts) svc) /\
  (svc <> AssignedServiceCloudRunJob ->
     ProviderFor svcString (applyOptions (opts ++ [WithCloudRunJobs p])) svc
     = ProviderFor svcString (applyOptions opts) svc) /\
  (svc <> AssignedServiceCloudBatch ->
     ProviderFor svcString (applyOptions (opts ++ [WithCloudBatch p])) svc
     = ProviderFor svcString (applyOptions opts) svc).
Proof.
  rewrite !applyOptions_snoc. unfold ProviderFor. simpl.
  rewrite !lookup_insert_eq.
  repeat split; try reflexivity; intros Hne; rewrite lookup_insert_ne by congruence;
    reflexivity.
Qed.

(** The logging loop of [New], with the lines it writes. *)
Lemma log_registered_lines (l : list (AssignedService * option (Provider World)))
    (s : State World) :
  Forall (fun sp => sp.2 <> None) l ->
  forEach l (fun '(svc, p) =>
     st <- invoke p (fun impl => ret (ServiceType impl)) ;;
     logPrintf ("Dispatcher: registered " +:+ svcString svc +:+
                " provider (service_type=" +:+ st +:+ ")"))%go s
  = Done tt (mkState (logged s ++ registryLines svcString l) (world s)).
Proof.
  intros Hl. revert s.
  induction Hl as [ | [svc [impl | ]] l Hx _ IH ]; intros s; simpl.
  - rewrite app_nil_r. destruct s; reflexivity.
  - unfold bind at 1. simpl. unfold bind at 1. simpl.
    rewrite IH. simpl. rewrite <- app_assoc. reflexivity.
  - simpl in Hx. congruence.
Qed.

Lemma registryLines_length (l : list (AssignedService * option (Provider World))) :
  Forall (fun sp => sp.2 <> None) l ->
  length (registryLines svcString l) = length l.
Proof.
  induction 1 as [ | [svc [impl | ]] l Hx _ IH ]; simpl; [ reflexivity | | ].
  - unfold registryLines in *. simpl. rewrite IH. reflexivity.
  - simpl in Hx. congruence.
Qed.

(** X2.  [New] panics exactly when an option left a nil provider in the
    registry.  Otherwise it returns either the configuration error, or the
    dispatcher built by the options with a nil error: then the backend is
    untouched and the log has grown by exactly one line per registered
    provider, the line of each registered provider being among them. *)
Theorem New_outcome (opts : list (Option World)) (s : State World) :
  (New svcString opts s = Panic <->
   exists svc, providers (applyOptions opts) !! svc = Some None) /\
  (forall r s', New svcString opts s = Done r s' ->
     (r = (None, Some errNoProvider) /\ s' = s /\
      providers (applyOptions opts) = ∅) \/
     (r = (Some (applyOptions opts), None) /\ world s' = world s /\
      exists lines,
        logged s' = logged s ++ lines /\
        length lines = size (providers (applyOptions opts)) /\
        forall svc p, providers (applyOptions opts) !! svc = Some (Some p) ->
                      registeredLine svcString svc p ∈ lines)).
Proof.
  set (d := applyOptions opts).
  destruct (decide (Exists (fun sp => sp.2 = None) (map_to_list (providers d))))
    as [Hnil | Hnonnil].
  - assert (Hne : size (providers d) <> 0).
    { apply Exists_exists in Hnil as ([svc p] & Hin & _).
      apply elem_of_map_to_list in Hin. intros H0.
      apply map_size_empty_iff in H0. rewrite H0, lookup_empty in Hin. discriminate. }
    assert (Hpanic : New svcString opts s = Panic).
    { unfold New. fold d. case_decide; [ contradiction | ].
      apply bind_Panic. apply log_registered_nil. exact Hnil. }
    split.
    + split; [ intros _ | intros _; exact Hpanic ].
      apply Exists_exists in Hnil as ([svc p] & Hin & Hp). simpl in Hp. subst p.
      exists svc. apply elem_of_map_to_list. exact Hin.
    + intros r s' Hdone. rewrite Hpanic in Hdone. discriminate.
  - apply not_Exists_Forall in Hnonnil; [ | intros sp; apply _ ].
    assert (Hall : Forall (fun sp : AssignedService * option (Provider World) =>
                             sp.2 <> None) (map_to_list (providers d))).
    { eapply Forall_impl; [ exact Hnonnil | ]. intros sp Hsp. exact Hsp. }
    split.
    + split.
      * unfold New. fold d. case_decide; [ discriminate | ].
        rewrite (bind_Done _ _ _ _ _ (log_registered_lines _ s Hall)). discriminate.
      * intros (svc & Hsvc). exfalso.
        apply elem_of_map_to_list in Hsvc.
        rewrite Forall_forall in Hall. apply (Hall _ Hsvc). reflexivity.
    + intros r s'. unfold New. fold d. case_decide as Hsize.
      * intros [= <- <-]. left. repeat split. apply map_size_empty_iff. exact Hsize.
      * rewrite (bind_Done _ _ _ _ _ (log_registered_lines _ s Hall)).
        intros [= <- <-]. right. repeat split.
        exists (registryLines svcString (map_to_list (providers d))).
        split; [ reflexivity | ]. split.
        -- rewrite (registryLines_length _ Hall). apply length_map_to_list.
        -- intros svc p Hp. apply elem_of_map_to_list in Hp.
           unfold registryLines. apply list_elem_of_omap.
           exists (svc, Some p). split; [ exact Hp | reflexivity ].
Qed.

(** X3.  A dispatcher returned by [New] never hands out a nil provider
    with a nil error: for every tier [ProviderFor] gives a provider, or the
    not-registered error; so its [SubmitJob], [GetJobStatus] and
    [CancelJob] either return that error or are the registered provider's
    call. *)
Theorem New_dispatcher_has_no_nil_provider (opts : list (Option World))
    (s s' : State World) (d : Dispatcher World) (e : option error)
    (svc : AssignedService) :
  New svcString opts s = Done (Some d, e) s' ->
  (ProviderFor svcString d svc = (None, Some (errNotRegistered svcString svc)) /\
   forall config path s1,
     SubmitJob svcString d svc config s1
       = Done (None, Some (errNotRegistered svcString svc)) s1 /\
     GetJobStatus svcString d svc path s1
       = Done (JobStatusUnknown, Some (errNotRegistered svcString svc)) s1 /\
     CancelJob svcString d svc path s1
       = Done (Some (errNotRegistered svcString svc)) s1) \/
  (exists p,
     ProviderFor svcString d svc = (Some p, None) /\
     forall config path s1,
       SubmitJob svcString d svc config s1
         = batch.SubmitJob p config
             (mkState (logged s1 ++ ["Dispatcher: routing job " +:+ JobID config +:+
                                     " to " +:+ svcString svc]) (world s1)) /\
       GetJobStatus svcString d svc path s1 = batch.GetJobStatus p path s1 /\
       CancelJob svcString d svc path s1 = batch.CancelJob p path s1).
Proof.
  intros Hnew. pose proof (New_registry_non_nil World svcString _ _ _ _ _ Hnew) as Hnn.
  unfold SubmitJob, GetJobStatus, CancelJob, ProviderFor.
  destruct (providers d !! svc) as [[p | ] | ] eqn:Hsvc.
  - right. exists p. split; [ reflexivity | ]. intros. repeat split; reflexivity.
  - destruct (Hnn svc None Hsvc). reflexivity.
  - left. split; [ reflexivity | ]. intros. repeat split; reflexivity.
Qed.

End DispatcherRegistry.

Lemma New_dispatcher_has_no_nil_provider_witness :
  (dispatcher.ProviderFor stubSvcString
     (dispatcher.applyOptions [dispatcher.WithCloudTasks (Some stubProvider)])
     router.AssignedServiceCloudTasks
   = (None, Some (dispatcher.errNotRegistered stubSvcString
                    router.AssignedServiceCloudTasks)) /\
   forall config path s1,
     dispatcher.SubmitJob stubSvcString
       (dispatcher.applyOptions [dispatcher.WithCloudTasks (Some stubProvider)])
       router.AssignedServiceCloudTasks config s1
       = Done (None, Some (dispatcher.errNotRegistered stubSvcString
                             router.AssignedServiceCloudTasks)) s1 /\
     dispatcher.GetJobStatus stubSvcString
       (dispatcher.applyOptions [dispatcher.WithCloudTasks (Some stubProvider)])
       router.AssignedServiceCloudTasks path s1
       = Done (batch.JobStatusUnknown,
               Some (dispatcher.errNotRegistered stubSvcString
                       router.AssignedServiceCloudTasks)) s1 /\
     dispatcher.CancelJob stubSvcString
       (dispatcher.applyOptions [dispatcher.WithCloudTasks (Some stubProvider)])
       router.AssignedServiceCloudTasks path s1
       = Done (Some (dispatcher.errNotRegistered stubSvcString
                       router.AssignedServiceCloudTasks)) s1) \/
  (exists p,
     dispatcher.ProviderFor stubSvcString
       (dispatcher.applyOptions [dispatcher.WithCloudTasks (Some stubProvider)])
       router.AssignedServiceCloudTasks = (Some p, None) /\
     forall config path s1,
       dispatcher.SubmitJob stubSvcString
         (dispatcher.applyOptions [dispatcher.WithCloudTasks (Some stubProvider)])
         router.AssignedServiceCloudTasks config s1
         = batch.SubmitJob p config
             (mkState (logged s1 ++ ["Dispatcher: routing job " +:+ batch.JobID config +:+
                                     " to " +:+ stubSvcString
                                                  router.AssignedServiceCloudTasks])
                      (world s1)) /\
       dispatcher.GetJobStatus stubSvcString
         (dispatcher.applyOptions [dispatcher.WithCloudTasks (Some stubProvider)])
         router.AssignedServiceCloudTasks path s1 = batch.GetJobStatus p path s1 /\
       dispatcher.CancelJob stubSvcString
         (dispatcher.applyOptions [dispatcher.WithCloudTasks (Some stubProvider)])
         router.AssignedServiceCloudTasks path s1 = batch.CancelJob p path s1).
Proof.
  apply (New_dispatcher_has_no_nil_provider unit stubSvcString
           [dispatcher.WithCloudTasks (Some stubProvider)] stubState
           (mkState ["Dispatcher: registered CLOUD_TASKS provider (service_type=stub)"] tt)
           (dispatcher.applyOptions [dispatcher.WithCloudTasks (Some stubProvider)])
           None router.AssignedServiceCloudTasks).
  vm_compute. reflexivity.
Defined.

(* ===================================================================== *)
(** * Further properties of the Cloud Tasks adapter                       *)
(* ===================================================================== *)

Section CloudTasksAdapter.
Import batch gcp.cloudtasks.
Variable World : Type.
Variable jsonMarshal : taskPayload -> string + error.

Lemma mapCloudTasksStatus_known (task : Task) :
  mapCloudTasksStatus (Some task) <> JobStatusUnknown.
Proof.
  unfold mapCloudTasksStatus.
  destruct (LastAttempt task) as [a | ]; [ | discriminate ].
  destruct (ResponseStatus a) as [st | ]; [ | discriminate ].
  destruct (_ && _); discriminate.
Qed.

(** X4.  [SubmitJob] of the Cloud Tasks adapter returns a result or an
    error, never both or neither.  When the payload cannot be encoded it
    returns the encoder's error wrapped and does not call the backend (the
    state is unchanged).  Otherwise it sends one request to the provider's
    queue, with the encoded payload as body: when the backend refuses it,
    the backend's error is returned wrapped and nothing is logged; when the
    backend creates the task, the result is the task's name with the status
    Pending, and one line with that name is logged. *)
Theorem cloudtasks_SubmitJob_outcome (p : GCPCloudTasksProvider World)
    (config : JobConfig) (s : State World) :
  exists res err s',
    SubmitJob jsonMarshal p config s = Done (res, err) s' /\
    (res = None <-> err <> None) /\
    (forall r, res = Some r ->
       InitialStatus r = JobStatusPending /\
       logged s' = logged s ++ ["Cloud Tasks task created: " +:+ CloudResourcePath r]) /\
    (forall e, err = Some e ->
       logged s' = logged s /\ exists cause, Unwrap e = Some cause) /\
    (forall cause,
       jsonMarshal (payloadOf config) = inr cause ->
       res = None /\
       err = Some (Wrapf "failed to marshal task payload: " cause) /\
       s' = s) /\
    (forall body cause w,
       jsonMarshal (payloadOf config) = inl body ->
       CreateTask (client p) (createTaskRequest p config body) (world s)
         = (inr cause, w) ->
       res = None /\
       err = Some (Wrapf "failed to create Cloud Tasks task: " cause) /\
       s' = mkState (logged s) w) /\
    (forall body task w,
       jsonMarshal (payloadOf config) = inl body ->
       CreateTask (client p) (createTaskRequest p config body) (world s)
         = (inl task, w) ->
       res = Some {| CloudResourcePath := Name task;
                     InitialStatus := JobStatusPending |} /\
       err = None /\
       s' = mkState (logged s ++ ["Cloud Tasks task created: " +:+ Name task]) w).
Proof.
  unfold SubmitJob. fold (payloadOf config).
  destruct (jsonMarshal (payloadOf config)) as [body | cause] eqn:Hjson.
  - fold (createTaskRequest p config body). unfold bind, call.
    destruct (CreateTask (client p) (createTaskRequest p config body) (world s))
      as [[task | cause] w] eqn:Hcreate; simpl.
    + eexists; eexists; eexists. split; [ reflexivity | ].
      split; [ split; [ discriminate | intros H; destruct H; reflexivity ] | ].
      split; [ intros r [= <-]; simpl; split; reflexivity | ].
      split; [ discriminate | ].
      split; [ discriminate | ].
      split; intros body' x w' [= <-] Hcreate'; rewrite Hcreate in Hcreate';
        [ discriminate | injection Hcreate' as <- <-; repeat split ].
    + eexists; eexists; eexists. split; [ reflexivity | ].
      split; [ split; [ discriminate | reflexivity ] | ].
      split; [ discriminate | ].
      split; [ intros e [= <-]; simpl; split; [ reflexivity | eauto ] | ].
      split; [ discriminate | ].
      split; intros body' x w' [= <-] Hcreate'; rewrite Hcreate in Hcreate';
        [ injection Hcreate' as <- <-; repeat split | discriminate ].
  - eexists; eexists; eexists. split; [ reflexivity | ].
    split; [ split; [ discriminate | reflexivity ] | ].
    split; [ discriminate | ].
    split; [ intros e [= <-]; simpl; split; [ reflexivity | eauto ] | ].
    split; [ intros cause' [= <-]; repeat split | ].
    split; intros; discriminate.
Qed.

(** X5.  [GetJobStatus] of the Cloud Tasks adapter returns the status
    Unknown exactly when it returns an error; the error is the backend's
    error for the task, wrapped, and nothing is logged. *)
Theorem cloudtasks_GetJobStatus_outcome (p : GCPCloudTasksProvider World)
    (path : string) (s : State World) :
  exists st err s',
    GetJobStatus p path s = Done (st, err) s' /\
    (st = JobStatusUnknown <-> err <> None) /\
    logged s' = logged s /\
    (forall e, err = Some e ->
       exists cause, e = Wrapf "failed to get Cloud Tasks task: " cause /\
                     (GetTask (client p) path (world s)).1 = inr cause).
Proof.
  unfold GetJobStatus, bind, call.
  destruct (GetTask (client p) path (world s)) as [[task | cause] w]; simpl.
  - eexists; eexists; eexists. split; [ reflexivity | ].
    split; [ split; [ intros H; destruct (mapCloudTasksStatus_known task H)
                    | intros H; destruct H; reflexivity ] | ].
    split; [ reflexivity | discriminate ].
  - eexists; eexists; eexists. split; [ reflexivity | ].
    split; [ split; [ discriminate | reflexivity ] | ].
    split; [ reflexivity | ]. intros e [= <-]. eauto.
Qed.

Lemma collectTaskNames_prefix (tasks : list Task) (rest : list (Task + error)) :
  rest = [] \/ (exists e rest', rest = inr e :: rest') ->
  collectTaskNames ((inl <$> tasks) ++ rest) = Name <$> tasks.
Proof.
  intros Hrest. induction tasks as [ | t tasks IH ]; simpl.
  - destruct Hrest as [-> | (e & rest' & ->)]; reflexivity.
  - f_equal. exact IH.
Qed.

(** X6.  [ListJobs] of the Cloud Tasks adapter never returns an error: it
    returns the names of the tasks the iterator gave before it stopped or
    failed, in that order; an error of the iterator is dropped, and what
    the iterator would give after it is not read. *)
Theorem cloudtasks_ListJobs_until_first_error
    (ListTasks : string -> World -> list (Task + error) * World)
    (p : GCPCloudTasksProvider World) (s : State World)
    (tasks : list Task) (rest : list (Task + error)) (w : World) :
  ListTasks ("projects/" +:+ projectID p +:+ "/locations/" +:+ region p +:+
             "/queues/" +:+ queueID p) (world s) = ((inl <$> tasks) ++ rest, w) ->
  rest = [] \/ (exists e rest', rest = inr e :: rest') ->
  ListJobs ListTasks p s = Done (Name <$> tasks, None) (mkState (logged s) w).
Proof.
  intros Hlist Hrest. unfold ListJobs.
  rewrite (bind_Done _ _ _ _ _ (call_Done _ s _ _ Hlist)).
  unfold ret. rewrite (collectTaskNames_prefix tasks rest Hrest). reflexivity.
Qed.

(** X7.  [NewGCPCloudTasksProvider] refuses a configuration without
    project or region before it creates a client (the state is untouched).
    A provider it returns comes with a nil error and has a non-empty
    project, region, queue and target URL, taken from the configuration;
    the queue is "jennah-simple" when the option "queue_id" is missing or
    empty. *)
Theorem NewGCPCloudTasksProvider_validates
    (NewClient : World -> (Client World + error) * World)
    (config : ProviderConfig) (s : State World) :
  (ProjectID config = "" \/ Region config = "" ->
     exists e, NewGCPCloudTasksProvider NewClient config s = Done (None, Some e) s) /\
  (forall p err s',
     NewGCPCloudTasksProvider NewClient config s = Done (Some p, err) s' ->
     err = None /\
     projectID p = ProjectID config /\ projectID p <> "" /\
     region p = Region config /\ region p <> "" /\
     ProviderOptions config !! "target_url" = Some (targetURL p) /\ targetURL p <> "" /\
     queueID p <> "" /\
     (ProviderOptions config !! "queue_id" = Some (queueID p) \/
      queueID p = "jennah-simple" /\
      (ProviderOptions config !! "queue_id" = None \/
       ProviderOptions config !! "queue_id" = Some ""))).
Proof.
  unfold NewGCPCloudTasksProvider. split.
  - intros [Hp | Hr].
    + case_decide; [ | contradiction ]. eexists. reflexivity.
    + case_decide; [ eexists; reflexivity | ].
      case_decide; [ | contradiction ]. eexists. reflexivity.
  - intros p err s'.
    case_decide as Hp; [ discriminate | ].
    case_decide as Hr; [ discriminate | ].
    unfold bind, call. destruct (NewClient (world s)) as [[c | cause] w]; simpl;
      [ | discriminate ].
    unfold optionOf.
    destruct (ProviderOptions config !! "target_url") as [url | ] eqn:Hurl; simpl.
    2: { intros H. discriminate H. }
    destruct (decide (url = "")) as [Hu | Hu]; [ discriminate | ].
    intros [= <- <- <-]. simpl.
    repeat (split; [ solve [ reflexivity | assumption ] | ]).
    destruct (ProviderOptions config !! "queue_id") as [q | ] eqn:Hq; simpl.
    + destruct (decide (q = "")) as [-> | Hq'].
      * split; [ discriminate | right; auto ].
      * split; [ assumption | left; reflexivity ].
    + split; [ discriminate | right; auto ].
Qed.

End CloudTasksAdapter.

Lemma cloudtasks_ListJobs_until_first_error_witness :
  gcp.cloudtasks.ListJobs brokenListing unitQueueProvider (mkState [] tt)
  = Done (["projects/p/locations/r/queues/q/tasks/a";
           "projects/p/locations/r/queues/q/tasks/b"], None) (mkState [] tt).
Proof.
  apply (cloudtasks_ListJobs_until_first_error unit brokenListing unitQueueProvider
           (mkState [] tt)
           [listedTask "projects/p/locations/r/queues/q/tasks/a";
            listedTask "projects/p/locations/r/queues/q/tasks/b"]
           [inr errNotFound; inl (listedTask "projects/p/locations/r/queues/q/tasks/c")]
           tt).
  - reflexivity.
  - right. eauto.
Defined.

(* ===================================================================== *)
(** * Further properties of the Cloud Run adapter                         *)
(* ===================================================================== *)

Section CloudRunAdapter.
Import batch gcp.cloudrunjobs.
Variables World Op1 Op2 Op3 : Type.
Variable executionString : Execution -> string.

Lemma mapCloudRunStatus_known (e : Execution) :
  mapCloudRunStatus (Some e) <> JobStatusUnknown.
Proof.
  destruct (scanConditions (Conditions e)) as [st | ] eqn:Hscan.
  - unfold mapCloudRunStatus. rewrite Hscan. intros ->.
    apply scanConditions_Some in Hscan as (c & _ & Hterm). inversion Hterm.
  - rewrite (countsStatus_fallback e Hscan).
    destruct (countsStatus_running_or_pending e) as [-> | ->]; discriminate.
Qed.

(** X8.  Once the job is created and its run accepted, [SubmitJob] of the
    Cloud Run adapter succeeds whether or not the metadata of the run
    operation can be read: the result is the created job's name with the
    status Running, the error is nil, and two lines are logged. *)
Theorem cloudrun_SubmitJob_succeeds_without_metadata
    (p : GCPCloudRunProvider World Op1 Op2 Op3) (config : JobConfig) (s : State World)
    (createOp : Op1) (job : Job) (runOp : Op2) (w1 w2 w3 : World) :
  CreateJob (jobsClient p) (createJobRequest p config) (world s) = (inl createOp, w1) ->
  CreateJobWait (jobsClient p) createOp w1 = (inl job, w2) ->
  RunJob (jobsClient p) (JobName job) w2 = (inl runOp, w3) ->
  exists line,
    SubmitJob executionString p config s
    = Done (Some {| CloudResourcePath := JobName job;
                    InitialStatus := JobStatusRunning |}, None)
           (mkState (logged s ++ ["Cloud Run job created: " +:+ JobName job; line])
                    (RunJobMetadata (jobsClient p) runOp w3).2).
Proof.
  intros Hcreate Hwait Hrun.
  unfold SubmitJob.
  rewrite (bind_Done _ _ _ _ _ (call_Done _ s _ _ Hcreate)).
  rewrite (bind_Done _ _ _ _ _ (call_Done _ (mkState (logged s) w1) _ _ Hwait)).
  unfold bind at 1, logPrintf at 1. simpl.
  rewrite (bind_Done _ _ _ _ _
             (call_Done _ (mkState (logged s ++ _) w2) _ _ Hrun)).
  unfold bind, call. simpl.
  destruct (RunJobMetadata (jobsClient p) runOp w3) as [[execution | err] w4]; simpl;
    eexists; rewrite <- app_assoc; reflexivity.
Qed.

(** X9.  [SubmitJob] of the Cloud Run adapter returns a result or an
    error, never both or neither.  It makes the calls of its steps in
    order and stops at the first that fails, returning that call's error
    wrapped under the name of the step: creating the job, waiting for the
    creation, or running the job (then the creation is already in the
    log).  When the three calls succeed, the result is the name of the
    created job with the status Running, and the creation is in the log. *)
Theorem cloudrun_SubmitJob_outcome
    (p : GCPCloudRunProvider World Op1 Op2 Op3) (config : JobConfig) (s : State World) :
  exists res err s',
    SubmitJob executionString p config s = Done (res, err) s' /\
    (res = None <-> err <> None) /\
    (forall r, res = Some r ->
       InitialStatus r = JobStatusRunning /\
       "Cloud Run job created: " +:+ CloudResourcePath r ∈ logged s') /\
    (forall e, err = Some e ->
       exists prefix cause,
         e = Wrapf prefix cause /\
         prefix ∈ ["failed to create Cloud Run job: ";
                   "failed waiting for Cloud Run job creation: ";
                   "failed to run Cloud Run job: "]) /\
    (forall cause w1,
       CreateJob (jobsClient p) (createJobRequest p config) (world s) = (inr cause, w1) ->
       res = None /\
       err = Some (Wrapf "failed to create Cloud Run job: " cause) /\
       s' = mkState (logged s) w1) /\
    (forall createOp w1 cause w2,
       CreateJob (jobsClient p) (createJobRequest p config) (world s)
         = (inl createOp, w1) ->
       CreateJobWait (jobsClient p) createOp w1 = (inr cause, w2) ->
       res = None /\
       err = Some (Wrapf "failed waiting for Cloud Run job creation: " cause) /\
       s' = mkState (logged s) w2) /\
    (forall createOp w1 job w2 cause w3,
       CreateJob (jobsClient p) (createJobRequest p config) (world s)
         = (inl createOp, w1) ->
       CreateJobWait (jobsClient p) createOp w1 = (inl job, w2) ->
       RunJob (jobsClient p) (JobName job) w2 = (inr cause, w3) ->
       res = None /\
       err = Some (Wrapf "failed to run Cloud Run job: " cause) /\
       s' = mkState (logged s ++ ["Cloud Run job created: " +:+ JobName job]) w3) /\
    (forall createOp w1 job w2 runOp w3,
       CreateJob (jobsClient p) (createJobRequest p config) (world s)
         = (inl createOp, w1) ->
       CreateJobWait (jobsClient p) createOp w1 = (inl job, w2) ->
       RunJob (jobsClient p) (JobName job) w2 = (inl runOp, w3) ->
       res = Some {| CloudResourcePath := JobName job;
                     InitialStatus := JobStatusRunning |} /\
       err = None /\
       world s' = (RunJobMetadata (jobsClient p) runOp w3).2).
Proof.
  unfold SubmitJob, bind, call, logPrintf, ret.
  destruct (CreateJob (jobsClient p) (createJobRequest p config) (world s))
    as [[createOp | err] w1] eqn:H1; simpl.
  2: { eexists; eexists; eexists. split; [ reflexivity | ].
       split; [ split; [ discriminate | reflexivity ] | ].
       split; [ discriminate | ].
       split; [ intros e [= <-]; eexists; eexists;
                split; [ reflexivity | set_solver ] | ].
       split; [ intros ? ? [= <- <-]; repeat split | ].
       repeat split; intros; discriminate. }
  destruct (CreateJobWait (jobsClient p) createOp w1) as [[job | err] w2] eqn:H2; simpl.
  2: { eexists; eexists; eexists. split; [ reflexivity | ].
       split; [ split; [ discriminate | reflexivity ] | ].
       split; [ discriminate | ].
       split; [ intros e [= <-]; eexists; eexists;
                split; [ reflexivity | set_solver ] | ].
       split; [ intros; discriminate | ].
       split; [ intros ? ? ? ? [= <- <-] H2'; rewrite H2 in H2';
                injection H2' as <- <-; repeat split | ].
       split; intros ? ? ? ? ? ? [= <- <-] H2'; rewrite H2 in H2'; discriminate. }
  destruct (RunJob (jobsClient p) (JobName job) w2) as [[runOp | err] w3] eqn:H3; simpl.
  2: { eexists; eexists; eexists. split; [ reflexivity | ].
       split; [ split; [ discriminate | reflexivity ] | ].
       split; [ discriminate | ].
       split; [ intros e [= <-]; eexists; eexists;
                split; [ reflexivity | set_solver ] | ].
       split; [ intros; discriminate | ].
       split; [ intros ? ? ? ? [= <- <-] H2'; rewrite H2 in H2'; discriminate | ].
       split; intros ? ? ? ? ? ? [= <- <-] H2' H3'; rewrite H2 in H2';
         injection H2' as <- <-; rewrite H3 in H3';
         [ injection H3' as <- <-; repeat split | discriminate ]. }
  destruct (RunJobMetadata (jobsClient p) runOp w3) as [[execution | err] w4] eqn:H4;
    simpl.
  all: eexists; eexists; eexists; (split; [ reflexivity | ]).
  all: split; [ split; [ discriminate | intros H; destruct H; reflexivity ] | ].
  all: split; [ intros r [= <-]; simpl; split; [ reflexivity | ];
                rewrite !elem_of_app, !list_elem_of_singleton; auto | ].
  all: split; [ discriminate | ].
  all: split; [ intros; discriminate | ].
  all: split; [ intros ? ? ? ? [= <- <-] H2'; rewrite H2 in H2'; discriminate | ].
  all: split; intros ? ? ? ? ? ? [= <- <-] H2' H3'; rewrite H2 in H2';
         injection H2' as <- <-; rewrite H3 in H3';
         [ discriminate | injection H3' as <- <-; rewrite H4; repeat split ].
Qed.

(** X10.  [GetJobStatus] of the Cloud Run adapter returns the status
    Unknown exactly when it returns an error, which is the wrapped error of
    the listing of the job's executions; nothing is logged. *)
Theorem cloudrun_GetJobStatus_outcome
    (p : GCPCloudRunProvider World Op1 Op2 Op3) (path : string) (s : State World) :
  exists st err s',
    GetJobStatus p path s = Done (st, err) s' /\
    (st = JobStatusUnknown <-> err <> None) /\
    logged s' = logged s /\
    (forall e, err = Some e ->
       exists cause, e = Wrapf "failed to list Cloud Run executions: " cause /\
                     (ListExecutionsNext (executionClient p) path (world s)).1
                     = inr cause).
Proof.
  unfold GetJobStatus, bind, call.
  destruct (ListExecutionsNext (executionClient p) path (world s))
    as [[execution | cause] w]; simpl.
  - eexists; eexists; eexists. split; [ reflexivity | ].
    split; [ split; [ intros H; destruct (mapCloudRunStatus_known execution H)
                    | intros H; destruct H; reflexivity ] | ].
    split; [ reflexivity | discriminate ].
  - eexists; eexists; eexists. split; [ reflexivity | ].
    split; [ split; [ discriminate | reflexivity ] | ].
    split; [ reflexivity | ]. intros e [= <-]. eauto.
Qed.

Lemma collectJobNames_prefix (jobs : list Job) (rest : list (Job + error)) :
  rest = [] \/ (exists e rest', rest = inr e :: rest') ->
  collectJobNames ((inl <$> jobs) ++ rest)
  = List.filter isJennahJob (JobName <$> jobs).
Proof.
  intros Hrest. induction jobs as [ | j jobs IH ]; simpl.
  - destruct Hrest as [-> | (e & rest' & ->)]; reflexivity.
  - destruct (isJennahJob (JobName j)); [ f_equal | ]; exact IH.
Qed.

(** X11.  [ListJobs] of the Cloud Run adapter never returns an error: of
    the jobs the iterator gave before it stopped or failed it returns, in
    order, the names that pass the "jennah-" test; an error of the iterator
    is dropped. *)
Theorem cloudrun_ListJobs_filters_until_first_error
    (ListJobsCall : string -> World -> list (Job + error) * World)
    (p : GCPCloudRunProvider World Op1 Op2 Op3) (s : State World)
    (jobs : list Job) (rest : list (Job + error)) (w : World) :
  ListJobsCall ("projects/" +:+ projectID p +:+ "/locations/" +:+ region p) (world s)
    = ((inl <$> jobs) ++ rest, w) ->
  rest = [] \/ (exists e rest', rest = inr e :: rest') ->
  ListJobs ListJobsCall p s
  = Done (List.filter isJennahJob (JobName <$> jobs), None) (mkState (logged s) w).
Proof.
  intros Hlist Hrest. unfold ListJobs.
  rewrite (bind_Done _ _ _ _ _ (call_Done _ s _ _ Hlist)).
  unfold ret. rewrite (collectJobNames_prefix jobs rest Hrest). reflexivity.
Qed.

(** X12.  [NewGCPCloudRunProvider] refuses a configuration without project
    or region before it creates a client (the state is untouched).  A
    provider it returns comes with a nil error and has the non-empty
    project and region of the configuration.  When the executions client
    cannot be created, the jobs client created before it is closed. *)
Theorem NewGCPCloudRunProvider_validates
    (NewJobsClient : World -> (JobsClient World Op1 Op2 + error) * World)
    (NewExecutionsClient : World -> (ExecutionsClient World Op3 + error) * World)
    (CloseJobsClient : JobsClient World Op1 Op2 -> World -> unit * World)
    (config : ProviderConfig) (s : State World) :
  (ProjectID config = "" \/ Region config = "" ->
     exists e, NewGCPCloudRunProvider NewJobsClient NewExecutionsClient
                 CloseJobsClient config s = Done (None, Some e) s) /\
  (forall p err s',
     NewGCPCloudRunProvider NewJobsClient NewExecutionsClient CloseJobsClient config s
       = Done (Some p, err) s' ->
     err = None /\
     projectID p = ProjectID config /\ projectID p <> "" /\
     region p = Region config /\ region p <> "") /\
  (forall jc w1 cause w2,
     ProjectID config <> "" -> Region config <> "" ->
     NewJobsClient (world s) = (inl jc, w1) ->
     NewExecutionsClient w1 = (inr cause, w2) ->
     NewGCPCloudRunProvider NewJobsClient NewExecutionsClient CloseJobsClient config s
       = Done (None, Some (Wrapf "failed to create Cloud Run Executions client: " cause))
              (mkState (logged s) (CloseJobsClient jc w2).2)).
Proof.
  unfold NewGCPCloudRunProvider. split; [ | split ].
  - intros [Hp | Hr].
    + case_decide; [ | contradiction ]. eexists. reflexivity.
    + case_decide; [ eexists; reflexivity | ].
      case_decide; [ | contradiction ]. eexists. reflexivity.
  - intros p err s'.
    case_decide as Hp; [ discriminate | ].
    case_decide as Hr; [ discriminate | ].
    unfold bind, call. destruct (NewJobsClient (world s)) as [[jc | cause] w1]; simpl;
      [ | discriminate ].
    destruct (NewExecutionsClient w1) as [[ec | cause] w2]; simpl.
    + intros [= <- <- <-]. simpl. auto.
    + destruct (CloseJobsClient jc w2). discriminate.
  - intros jc w1 cause w2 Hp Hr Hjc Hec.
    case_decide; [ contradiction | ]. case_decide; [ contradiction | ].
    rewrite (bind_Done _ _ _ _ _ (call_Done _ s _ _ Hjc)).
    rewrite (bind_Done _ _ _ _ _ (call_Done _ (mkState (logged s) w1) _ _ Hec)).
    unfold bind, call. simpl. destruct (CloseJobsClient jc w2). reflexivity.
Qed.

End CloudRunAdapter.

Lemma cloudrun_SubmitJob_succeeds_without_metadata_witness :
  exists line,
    gcp.cloudrunjobs.SubmitJob (fun _ => "") acceptingProvider mediumConfig (mkState [] tt)
    = Done (Some {| batch.CloudResourcePath := "projects/p/locations/r/jobs/jennah-1";
                    batch.InitialStatus := batch.JobStatusRunning |}, None)
           (mkState ["Cloud Run job created: projects/p/locations/r/jobs/jennah-1"; line]
                    tt).
Proof.
  apply (cloudrun_SubmitJob_succeeds_without_metadata unit
           gcp.cloudrunjobs.CreateJobRequest string unit (fun _ => "")
           acceptingProvider mediumConfig (mkState [] tt)
           (gcp.cloudrunjobs.createJobRequest acceptingProvider mediumConfig)
           (createdJob (gcp.cloudrunjobs.createJobRequest acceptingProvider mediumConfig))
           "projects/p/locations/r/jobs/jennah-1/operations/1" tt tt tt); reflexivity.
Defined.

Lemma cloudrun_ListJobs_filters_until_first_error_witness :
  gcp.cloudrunjobs.ListJobs mixedListing acceptingProvider (mkState [] tt)
  = Done (["projects/p/locations/r/jobs/jennah-1";
           "projects/p/locations/r/jobs/jennah-2"], None) (mkState [] tt).
Proof.
  apply (cloudrun_ListJobs_filters_until_first_error unit
           gcp.cloudrunjobs.CreateJobRequest string unit mixedListing acceptingProvider
           (mkState [] tt)
           [listedJob "projects/p/locations/r/jobs/jennah-1";
            listedJob "projects/p/locations/r/jobs/other";
            listedJob "projects/p/locations/r/jobs/jennah-2"]
           [inr errNotFound; inl (listedJob "projects/p/locations/r/jobs/jennah-3")] tt).
  - reflexivity.
  - right. eauto.
Defined.

(* ===================================================================== *)
(** * The test for Jennah's jobs                                          *)
(* ===================================================================== *)

Section JennahJobs.
Import gcp.cloudrunjobs.

Lemma str_cons_app (x : Ascii.ascii) (a b : string) :
  String x a +:+ b = String x (a +:+ b).
Proof. reflexivity. Qed.

Lemma str_nil_app (b : string) : EmptyString +:+ b = b.
Proof. reflexivity. Qed.

Lemma str_app_assoc (a b c : string) : (a +:+ b) +:+ c = a +:+ (b +:+ c).
Proof.
  induction a as [ | x a IH ]; [ reflexivity | ].
  rewrite !str_cons_app, IH. reflexivity.
Qed.

Lemma hasByte_app (c : Ascii.ascii) (a b : string) :
  hasByte c (a +:+ b) = hasByte c a || hasByte c b.
Proof.
  induction a as [ | x a IH ]; [ reflexivity | ].
  rewrite str_cons_app. simpl. rewrite IH. apply orb_assoc.
Qed.

Lemma HasPrefix_spec (s p : string) :
  HasPrefix s p = true <-> exists rest, s = p +:+ rest.
Proof.
  revert s. induction p as [ | a p IH ]; intros s.
  - split; [ intros _; exists s; reflexivity | intros _; destruct s; reflexivity ].
  - destruct s as [ | b s ]; simpl.
    + split; [ discriminate | intros (rest & Hrest); discriminate ].
    + case_decide as Hab.
      * subst b. rewrite IH. split; intros (rest & Hrest); exists rest.
        -- rewrite str_cons_app. congruence.
        -- rewrite str_cons_app in Hrest. congruence.
      * split; [ discriminate | intros (rest & Hrest) ].
        rewrite str_cons_app in Hrest. congruence.
Qed.

Lemma Split_not_nil (s : string) (sep : Ascii.ascii) : Split s sep <> [].
Proof.
  destruct s as [ | c s ]; simpl; [ discriminate | ].
  case_decide; [ discriminate | ]. destruct (Split s sep); discriminate.
Qed.

Lemma Split_single (seg : string) (sep : Ascii.ascii) :
  hasByte sep seg = false -> Split seg sep = [seg].
Proof.
  induction seg as [ | c seg IH ]; simpl; [ reflexivity | ].
  intros Hno. apply orb_false_iff in Hno as [Hc Hseg].
  apply bool_decide_eq_false in Hc.
  case_decide; [ contradiction | ]. rewrite (IH Hseg). reflexivity.
Qed.

Lemma Split_app_sep (d seg : string) (sep : Ascii.ascii) :
  Split (d +:+ String sep seg) sep = Split d sep ++ Split seg sep.
Proof.
  induction d as [ | c d IH ].
  - rewrite str_nil_app. simpl. case_decide; [ reflexivity | congruence ].
  - rewrite str_cons_app. simpl. case_decide; [ rewrite IH; reflexivity | ].
    rewrite IH. pose proof (Split_not_nil d sep) as Hd.
    destruct (Split d sep); [ congruence | reflexivity ].
Qed.

(** A split string is its pieces put back together; the last piece holds
    no separator. *)
Lemma Split_decompose (s : string) (sep : Ascii.ascii) :
  exists init l,
    Split s sep = init ++ [l] /\ s = prefixDir sep init +:+ l /\
    hasByte sep l = false.
Proof.
  induction s as [ | c s (init & l & Hsplit & Hs & Hl) ].
  - exists [], EmptyString. repeat split.
  - simpl. case_decide as Hc.
    + subst c. exists (EmptyString :: init), l.
      split; [ rewrite Hsplit; reflexivity | ].
      split; [ | exact Hl ].
      change (String sep s = String sep (prefixDir sep init +:+ l)). congruence.
    + rewrite Hsplit. destruct init as [ | part init ].
      * exists [], (String c l).
        split; [ reflexivity | ]. split.
        -- change (String c s = String c l). change (s = l) in Hs. congruence.
        -- simpl. rewrite Hl. rewrite bool_decide_eq_false_2 by assumption. reflexivity.
      * exists (String c part :: init), l.
        split; [ reflexivity | ]. split; [ | exact Hl ].
        change (String c s = String c (prefixDir sep (part :: init) +:+ l)).
        congruence.
Qed.

Lemma prefixDir_ends_with_sep (sep : Ascii.ascii) (init : list string) :
  prefixDir sep init = EmptyString /\ init = [] \/
  exists d, prefixDir sep init = d +:+ String sep EmptyString.
Proof.
  induction init as [ | part init IH ]; [ left; split; reflexivity | right ].
  simpl. destruct IH as [[-> _] | (d & ->)].
  - exists part. reflexivity.
  - exists (part +:+ String sep d). rewrite str_app_assoc. reflexivity.
Qed.

(** X13.  The test [ListJobs] of the Cloud Run adapter applies to a job
    name holds exactly when the part of the name after its last "/" (the
    whole name when it has none) starts with "jennah-": the name is a
    directory part, empty or ending in "/", then "jennah-", then a rest
    without "/". *)
Theorem isJennahJob_last_segment (name : string) :
  isJennahJob name = true <->
  exists dir rest,
    name = dir +:+ "jennah-" +:+ rest /\
    hasByte "/" rest = false /\
    (dir = "" \/ exists d, dir = d +:+ "/").
Proof.
  unfold isJennahJob. split.
  - intros Htest. apply andb_true_iff in Htest as [_ Hprefix].
    destruct (Split_decompose name "/") as (init & l & Hsplit & Hname & Hl).
    rewrite Hsplit, last_last in Hprefix.
    apply HasPrefix_spec in Hprefix as (rest & ->).
    exists (prefixDir "/" init), rest. split; [ exact Hname | ].
    rewrite hasByte_app in Hl. apply orb_false_iff in Hl as [_ Hrest].
    split; [ exact Hrest | ].
    destruct (prefixDir_ends_with_sep "/" init) as [[-> _] | (d & ->)]; eauto.
  - intros (dir & rest & -> & Hrest & Hdir).
    assert (Hseg : Split ("jennah-" +:+ rest) "/" = ["jennah-" +:+ rest]).
    { apply Split_single. rewrite hasByte_app, Hrest. reflexivity. }
    assert (Hlast : exists init, Split (dir +:+ "jennah-" +:+ rest) "/"
                                 = init ++ ["jennah-" +:+ rest]).
    { destruct Hdir as [-> | (d & ->)].
      - exists []. exact Hseg.
      - exists (Split d "/"). rewrite str_app_assoc.
        change ("/" +:+ "jennah-" +:+ rest) with (String "/" ("jennah-" +:+ rest)).
        rewrite Split_app_sep, Hseg. reflexivity. }
    destruct Hlast as (init & ->).
    rewrite last_last, length_app. simpl.
    apply andb_true_iff. split.
    + apply bool_decide_eq_true. lia.
    + apply HasPrefix_spec. eauto.
Qed.

End JennahJobs.

(* ===================================================================== *)
(** * The job definition built for Cloud Run                              *)
(* ===================================================================== *)

Section JobDefinition.
Import batch gcp.cloudrunjobs.
Local Open Scope Z_scope.

(** X14.  The container runs the entrypoint, when one is set, followed by
    the commands of the job: the entrypoint becomes the command and the
    commands its arguments; without an entrypoint the commands are the
    command and there are no arguments.  The image is the job's. *)
Theorem buildContainer_command_line (config : JobConfig) :
  Command (buildContainer config) ++ Args (buildContainer config)
  = (if decide (ContainerEntrypoint config = "") then []
     else [ContainerEntrypoint config]) ++ Commands config /\
  (ContainerEntrypoint config = "" -> Args (buildContainer config) = []) /\
  (ContainerEntrypoint config <> "" ->
     Command (buildContainer config) = [ContainerEntrypoint config]) /\
  Image (buildContainer config) = ImageURI config.
Proof.
  unfold buildContainer. simpl.
  destruct (Commands config) as [ | c cs ] eqn:Hc; simpl;
    repeat case_decide; simpl in *; try lia; try contradiction;
    repeat split; try reflexivity; intros; try contradiction;
    rewrite ?app_nil_r; reflexivity.
Qed.

(** X15.  The resource limits of the container hold at most the keys "cpu"
    and "memory", each only for a positive requirement: the CPU limit is
    the millicores followed by "m", the memory limit the MiB followed by
    "Mi"; a requirement of zero (or a job without requirements) sets no
    limit and leaves the backend's default. *)
Theorem buildContainer_limits (config : JobConfig) (k v : string) :
  Limits (buildContainer config) !! k = Some v <->
  exists r, Resources config = Some r /\
    ((k = "cpu" /\ 0 < CPUMillis r /\ v = pretty (CPUMillis r) +:+ "m") \/
     (k = "memory" /\ 0 < MemoryMiB r /\ v = pretty (MemoryMiB r) +:+ "Mi")).
Proof.
  unfold buildContainer. simpl.
  destruct (Resources config) as [r | ].
  2: { rewrite lookup_empty. split; [ discriminate | intros (r & [=] & _) ]. }
  destruct (0 <? CPUMillis r) eqn:Hcpu; destruct (0 <? MemoryMiB r) eqn:Hmem;
    try apply Z.ltb_lt in Hcpu; try apply Z.ltb_ge in Hcpu;
    try apply Z.ltb_lt in Hmem; try apply Z.ltb_ge in Hmem.
  all: rewrite ?lookup_insert; repeat case_decide; subst; rewrite ?lookup_empty.
  all: split;
    [ intros Hv; simplify_eq; try (exists r; split; [ reflexivity | ]; tauto)
    | intros (r' & [= <-] & [(Hk & Hpos & ->) | (Hk & Hpos & ->)]);
      try reflexivity; try discriminate; try congruence; try lia ].
Qed.

Lemma wrap_small (bits x : Z) :
  0 < bits -> - 2 ^ (bits - 1) <= x < 2 ^ (bits - 1) -> wrap bits x = x.
Proof.
  intros Hbits Hx. unfold wrap.
  assert (H2 : 2 ^ bits = 2 * 2 ^ (bits - 1)).
  { rewrite <- Z.pow_succ_r by lia. f_equal. lia. }
  rewrite Z.mod_small by lia. lia.
Qed.

Lemma wrap_range (bits x : Z) :
  0 < bits -> - 2 ^ (bits - 1) <= wrap bits x < 2 ^ (bits - 1).
Proof.
  intros Hbits. unfold wrap.
  assert (H2 : 2 ^ bits = 2 * 2 ^ (bits - 1)).
  { rewrite <- Z.pow_succ_r by lia. f_equal. lia. }
  assert (Hpos : 0 < 2 ^ bits) by (apply Z.pow_pos_nonneg; lia).
  pose proof (Z.mod_pos_bound (x + 2 ^ (bits - 1)) (2 ^ bits) Hpos). lia.
Qed.

(** X16.  The timeout of the task template is the job's maximum run
    duration, in nanoseconds, for every duration from one second up to
    9223372036 seconds (the 64-bit product does not wrap there); there is
    no timeout exactly when the job has no requirements or its duration is
    not positive. *)
Theorem buildExecutionTemplate_timeout (config : JobConfig) :
  (forall r, Resources config = Some r ->
     0 < MaxRunDurationSeconds r <= 9223372036 ->
     Timeout (Template (buildExecutionTemplate config))
     = Some (MaxRunDurationSeconds r * 1000000000)) /\
  (Timeout (Template (buildExecutionTemplate config)) = None <->
   Resources config = None \/
   exists r, Resources config = Some r /\ MaxRunDurationSeconds r <= 0).
Proof.
  unfold buildExecutionTemplate. simpl. split.
  - intros r -> Hsec.
    replace (0 <? MaxRunDurationSeconds r) with true by (symmetry; apply Z.ltb_lt; lia).
    unfold mul64, Second. rewrite wrap_small; [ reflexivity | lia | ].
    change (2 ^ (64 - 1)) with 9223372036854775808. lia.
  - destruct (Resources config) as [r | ]; [ | tauto ].
    destruct (0 <? MaxRunDurationSeconds r) eqn:Hsec.
    + apply Z.ltb_lt in Hsec. split; [ discriminate | ].
      intros [[=] | (r' & [= <-] & Hle)]. lia.
    + apply Z.ltb_ge in Hsec. split; [ eauto | reflexivity ].
Qed.

(** X17.  The task count and the parallelism of the execution template
    are 32-bit values.  A positive count or parallelism below 2^31 is
    passed on unchanged; a job without task group, or with a count or
    parallelism that is not positive, leaves them at zero (the backend's
    default). *)
Theorem buildExecutionTemplate_counts (config : JobConfig) :
  - 2 ^ 31 <= TemplateTaskCount (buildExecutionTemplate config) < 2 ^ 31 /\
  - 2 ^ 31 <= TemplateParallelism (buildExecutionTemplate config) < 2 ^ 31 /\
  (forall g, TaskGroup config = Some g ->
     (0 < TaskCount g < 2 ^ 31 ->
        TemplateTaskCount (buildExecutionTemplate config) = TaskCount g) /\
     (0 < Parallelism g < 2 ^ 31 ->
        TemplateParallelism (buildExecutionTemplate config) = Parallelism g) /\
     (TaskCount g <= 0 -> TemplateTaskCount (buildExecutionTemplate config) = 0) /\
     (Parallelism g <= 0 -> TemplateParallelism (buildExecutionTemplate config) = 0)) /\
  (TaskGroup config = None ->
     TemplateTaskCount (buildExecutionTemplate config) = 0 /\
     TemplateParallelism (buildExecutionTemplate config) = 0).
Proof.
  unfold buildExecutionTemplate, int32. simpl.
  pose proof (wrap_range 32) as Hrange. change (32 - 1) with 31 in Hrange.
  pose proof (wrap_small 32) as Hsmall. change (32 - 1) with 31 in Hsmall.
  destruct (TaskGroup config) as [g | ].
  2: { repeat split; try discriminate; lia. }
  destruct (0 <? TaskCount g) eqn:Hc; destruct (0 <? Parallelism g) eqn:Hp;
    try apply Z.ltb_lt in Hc; try apply Z.ltb_ge in Hc;
    try apply Z.ltb_lt in Hp; try apply Z.ltb_ge in Hp.
  all: split; [ try apply Hrange; lia | ].
  all: split; [ try apply Hrange; lia | ].
  all: split; [ | discriminate ].
  all: intros g' [= <-]; repeat split; intros; try lia; try reflexivity.
  all: apply Hsmall; lia.
Qed.

(** X18.  The environment of the container is the environment of the job:
    a variable is in the container's list exactly when the job's map binds
    it to that value, and no name occurs twice. *)
Theorem buildContainer_env (config : JobConfig) :
  (forall k v,
     {| EnvName := k; EnvValue := v |} ∈ Env (buildContainer config) <->
     EnvVars config !! k = Some v) /\
  length (Env (buildContainer config)) = size (EnvVars config) /\
  NoDup (EnvName <$> Env (buildContainer config)).
Proof.
  unfold buildContainer. simpl. split; [ | split ].
  - intros k v. rewrite list_elem_of_fmap. split.
    + intros ([k' v'] & [= -> ->] & Hin). apply elem_of_map_to_list. exact Hin.
    + intros Hkv. exists (k, v). split; [ reflexivity | ].
      apply elem_of_map_to_list. exact Hkv.
  - rewrite length_fmap. apply length_map_to_list.
  - rewrite <- list_fmap_compose.
    apply (NoDup_fst_map_to_list (EnvVars config)).
Qed.

End JobDefinition.

(* ===================================================================== *)
(** * The Dispatcher over providers that keep their contract              *)
(* ===================================================================== *)

Section DispatcherContracts.
Import batch router dispatcher.
Variable World : Type.
Variable svcString : AssignedService -> string.

(** X19.  The dispatcher keeps the contract of its providers.  Over a
    registry without nil provider, if the provider registered for a tier
    (when there is one) returns from [SubmitJob] a result or an error and
    never both or neither, so does the dispatcher's [SubmitJob] for that
    tier; and if the provider's [GetJobStatus] returns Unknown only with
    an error, so does the dispatcher's.  For a tier without provider both
    hold by the not-registered error. *)
Theorem dispatcher_keeps_contracts (d : Dispatcher World) (svc : AssignedService)
    (config : JobConfig) (path : string) :
  nonNil d ->
  (forall p, providers d !! svc = Some (Some p) ->
     submitContract (batch.SubmitJob p config) /\
     statusContract (batch.GetJobStatus p path)) ->
  submitContract (SubmitJob svcString d svc config) /\
  statusContract (GetJobStatus svcString d svc path).
Proof.
  intros Hnn Hp.
  unfold SubmitJob, GetJobStatus, ProviderFor.
  destruct (providers d !! svc) as [[p | ] | ] eqn:Hsvc.
  - destruct (Hp p eq_refl) as [Hsubmit Hstatus]. split.
    + intros s. unfold bind, logPrintf. simpl. apply Hsubmit.
    + intros s. simpl. apply Hstatus.
  - destruct (Hnn svc None Hsvc). reflexivity.
  - split; intros s; unfold ret.
    + eexists; eexists; eexists. split; [ reflexivity | ].
      split; [ discriminate | reflexivity ].
    + eexists; eexists; eexists. split; [ reflexivity | ].
      split; [ discriminate | reflexivity ].
Qed.

End DispatcherContracts.

Lemma dispatcher_keeps_contracts_witness :
  submitContract
    (dispatcher.SubmitJob stubSvcString
       (dispatcher.applyOptions [dispatcher.WithCloudTasks (Some stubProvider)])
       router.AssignedServiceCloudTasks stubConfig) /\
  statusContract
    (dispatcher.GetJobStatus stubSvcString
       (dispatcher.applyOptions [dispatcher.WithCloudTasks (Some stubProvider)])
       router.AssignedServiceCloudTasks "stub/job-1").
Proof.
  apply (dispatcher_keeps_contracts unit stubSvcString).
  - intros [] p; vm_compute; intros Hp; congruence.
  - intros p Hp. vm_compute in Hp. injection Hp as <-. split; intros s.
    + eexists; eexists; eexists. split; [ reflexivity | ].
      split; [ discriminate | intros H; destruct H; reflexivity ].
    + eexists; eexists; eexists. split; [ reflexivity | ].
      split; [ discriminate | intros H; destruct H; reflexivity ].
Defined.

Section OptionOrder.
Import batch router dispatcher.
Variable World : Type.

(** X20.  The registry does not depend on the order in which options for
    different tiers are given, and an option for a tier replaces an
    earlier option for the same tier entirely. *)
Theorem options_commute_and_override (d : Dispatcher World)
    (p q : option (Provider World)) :
  WithCloudTasks p (WithCloudRunJobs q d) = WithCloudRunJobs q (WithCloudTasks p d) /\
  WithCloudTasks p (WithCloudBatch q d) = WithCloudBatch q (WithCloudTasks p d) /\
  WithCloudRunJobs p (WithCloudBatch q d) = WithCloudBatch q (WithCloudRunJobs p d) /\
  WithCloudTasks p (WithCloudTasks q d) = WithCloudTasks p d /\
  WithCloudRunJobs p (WithCloudRunJobs q d) = WithCloudRunJobs p d /\
  WithCloudBatch p (WithCloudBatch q d) = WithCloudBatch p d.
Proof.
  unfold WithCloudTasks, WithCloudRunJobs, WithCloudBatch. simpl.
  repeat split; f_equal;
    first [ apply insert_insert_eq | apply insert_insert_ne; discriminate ].
Qed.

End OptionOrder.
